(** * PomodoroTimer: the countdown engine and its persistence

    A shallow embedding of [src/contexts/TimerContext.tsx] and
    [src/lib/timerPersistence.ts].

    Conventions.
    - JavaScript numbers that hold counts of seconds, phase indices and
      epoch milliseconds are integers here ([Z]); [Math.floor (a / 1000)]
      is [a / 1000] on [Z], which rounds towards minus infinity.
    - [string | null] is [option string]; [Preset | null] is
      [option Preset].
    - Reading a property of [undefined] raises a [TypeError] in
      JavaScript; an updater that does so is modelled as returning
      [TypeError] instead of a state.
    - [Date.now ()] is the explicit argument [now].
    - The stores hold what this program wrote: the [localStorage] slot
      is one optional snapshot, Firestore a finite map from user ids to
      snapshots. *)

From Stdlib Require Import Ascii.
From stdpp Require Import numbers list strings option gmap.

Open Scope Z_scope.

(** ** Data model *)

(** [TimerStatus], TimerContext.tsx line 30. *)
Inductive TimerStatus : Type :=
  | idle
  | running
  | paused
  | completed.

Global Instance TimerStatus_eq_dec : EqDecision TimerStatus.
Proof. solve_decision. Defined.

(** [TimerState], TimerContext.tsx lines 32-37. *)
Record TimerState : Type := mkTimerState {
  totalSeconds : Z;
  isRunning : bool;
  status : TimerStatus;
  currentPhaseIndex : Z
}.

Global Instance TimerState_eq_dec : EqDecision TimerState.
Proof. solve_decision. Defined.

(** [Phase] and [Preset] of [@/lib/presets]: the fields the engine reads,
    plus the identifying ones. *)
Record Phase : Type := mkPhase {
  phaseId : string;
  phaseName : string;
  durationMinutes : Z;
  phaseOrder : Z
}.

Global Instance Phase_eq_dec : EqDecision Phase.
Proof. solve_decision. Defined.

Record Preset : Type := mkPreset {
  presetId : string;
  presetName : string;
  phases : list Phase;
  loopPhases : bool
}.

Global Instance Preset_eq_dec : EqDecision Preset.
Proof. solve_decision. Defined.

(** [PersistedTimerState], timerPersistence.ts lines 7-14. *)
Record PersistedTimerState : Type := mkPersisted {
  p_totalSeconds : Z;
  p_currentPhaseIndex : Z;
  p_status : TimerStatus;
  p_activePresetId : option string;
  p_savedAt : Z;
  p_isRunning : bool
}.

Global Instance PersistedTimerState_eq_dec : EqDecision PersistedTimerState.
Proof. solve_decision. Defined.

(** Outcome of a state updater: a new state, or the [TypeError] raised by
    reading [durationMinutes] of [undefined]. *)
Inductive result (A : Type) : Type :=
  | Ok (a : A)
  | TypeError.
Arguments Ok {A} a.
Arguments TypeError {A}.

(** [arr[i]]: [undefined] (here [None]) outside [0 .. length - 1]. *)
Definition js_index {A : Type} (arr : list A) (i : Z) : option A :=
  if decide (0 <= i) then arr !! Z.to_nat i else None.

(** [arr.length] *)
Definition js_length {A : Type} (arr : list A) : Z := Z.of_nat (length arr).

(** ** timerPersistence.ts *)

Module Persistence.

(** [calculateRestoredState], lines 109-137. *)
Definition calculateRestoredState (now : Z) (savedState : PersistedTimerState)
  : PersistedTimerState :=
  if negb (p_isRunning savedState)
     || negb (bool_decide (p_status savedState = running))
  then savedState
  else
    let elapsedSeconds := (now - p_savedAt savedState) / 1000 in
    let adjustedSeconds := Z.max 0 (p_totalSeconds savedState - elapsedSeconds) in
    if decide (adjustedSeconds = 0) then
      {| p_totalSeconds := 0;
         p_currentPhaseIndex := p_currentPhaseIndex savedState;
         p_status := paused;
         p_activePresetId := p_activePresetId savedState;
         p_savedAt := now;
         p_isRunning := false |}
    else
      {| p_totalSeconds := adjustedSeconds;
         p_currentPhaseIndex := p_currentPhaseIndex savedState;
         p_status := p_status savedState;
         p_activePresetId := p_activePresetId savedState;
         p_savedAt := now;
         p_isRunning := p_isRunning savedState |}.

(** [createPersistedState], lines 142-157. *)
Definition createPersistedState (now : Z) (totalSeconds : Z)
    (currentPhaseIndex : Z) (status : TimerStatus)
    (activePresetId : option string) (isRunning : bool)
  : PersistedTimerState :=
  {| p_totalSeconds := totalSeconds;
     p_currentPhaseIndex := currentPhaseIndex;
     p_status := status;
     p_activePresetId := activePresetId;
     p_savedAt := now;
     p_isRunning := isRunning |}.

End Persistence.

(** ** TimerContext.tsx: the countdown engine *)

Module Engine.

(** The state [useState] starts from when nothing is restored
    (lines 96 and 118). *)
Definition initialState : TimerState :=
  {| totalSeconds := 0; isRunning := false; status := idle;
     currentPhaseIndex := 0 |}.

(** The state a control or the tick moves to when it enters phase
    [index]: [{ totalSeconds: phase.durationMinutes * 60, isRunning,
    status, currentPhaseIndex: index }], where [phase = phases[index]]. *)
Definition enterPhase (phases : list Phase) (index : Z)
    (run : bool) (st : TimerStatus) : result TimerState :=
  match js_index phases index with
  | Some phase =>
      Ok {| totalSeconds := durationMinutes phase * 60;
            isRunning := run;
            status := st;
            currentPhaseIndex := index |}
  | None => TypeError
  end.

(** The updater passed to [setTimerState] by the interval callback,
    lines 301-339. *)
Definition tick (activePreset : option Preset) (prev : TimerState)
  : result TimerState :=
  if decide (totalSeconds prev <= 1) then
    match activePreset with
    | Some ap =>
        let nextPhaseIndex := currentPhaseIndex prev + 1 in
        if decide (nextPhaseIndex < js_length (phases ap)) then
          enterPhase (phases ap) nextPhaseIndex true running
        else if loopPhases ap then
          enterPhase (phases ap) 0 true running
        else
          Ok {| totalSeconds := 0; isRunning := false; status := completed;
                currentPhaseIndex := currentPhaseIndex prev |}
    | None =>
        Ok {| totalSeconds := 0; isRunning := false; status := completed;
              currentPhaseIndex := currentPhaseIndex prev |}
    end
  else
    Ok {| totalSeconds := totalSeconds prev - 1;
          isRunning := isRunning prev;
          status := status prev;
          currentPhaseIndex := currentPhaseIndex prev |}.

(** [start], lines 361-389. *)
Definition start (activePreset : option Preset) (prev : TimerState)
  : result TimerState :=
  match activePreset with
  | None => Ok prev
  | Some ap =>
      if decide (js_length (phases ap) = 0) then Ok prev
      else if bool_decide (status prev = completed)
              || bool_decide (status prev = idle) then
        enterPhase (phases ap) 0 true running
      else
        let resumed :=
          {| totalSeconds := totalSeconds prev; isRunning := true;
             status := running;
             currentPhaseIndex := currentPhaseIndex prev |} in
        if decide (totalSeconds prev = 0) then
          match js_index (phases ap) (currentPhaseIndex prev) with
          | Some currentPhaseData =>
              Ok {| totalSeconds := durationMinutes currentPhaseData * 60;
                    isRunning := true;
                    status := running;
                    currentPhaseIndex := currentPhaseIndex prev |}
          | None => Ok resumed
          end
        else Ok resumed
  end.

(** [pause], lines 391-393. *)
Definition pause (prev : TimerState) : result TimerState :=
  Ok {| totalSeconds := totalSeconds prev; isRunning := false;
        status := paused; currentPhaseIndex := currentPhaseIndex prev |}.

(** [reset], lines 395-404. *)
Definition reset (activePreset : option Preset) (prev : TimerState)
  : result TimerState :=
  match activePreset with
  | None => Ok prev
  | Some ap =>
      if decide (js_length (phases ap) = 0) then Ok prev
      else enterPhase (phases ap) 0 false idle
  end.

(** [skipToNextPhase], lines 406-432. *)
Definition skipToNextPhase (activePreset : option Preset) (prev : TimerState)
  : result TimerState :=
  match activePreset with
  | None => Ok prev
  | Some ap =>
      if decide (js_length (phases ap) = 0) then Ok prev
      else
        let nextIndex := currentPhaseIndex prev + 1 in
        if decide (nextIndex < js_length (phases ap)) then
          enterPhase (phases ap) nextIndex false paused
        else if loopPhases ap then
          enterPhase (phases ap) 0 false paused
        else Ok prev
  end.

(** [skipToPreviousPhase], lines 434-460. *)
Definition skipToPreviousPhase (activePreset : option Preset)
    (prev : TimerState) : result TimerState :=
  match activePreset with
  | None => Ok prev
  | Some ap =>
      if decide (js_length (phases ap) = 0) then Ok prev
      else
        let prevIndex := currentPhaseIndex prev - 1 in
        if decide (prevIndex >= 0) then
          enterPhase (phases ap) prevIndex false paused
        else if loopPhases ap then
          enterPhase (phases ap) (js_length (phases ap) - 1) false paused
        else Ok prev
  end.

(** [goToPhase], lines 462-472. *)
Definition goToPhase (activePreset : option Preset) (index : Z)
    (prev : TimerState) : result TimerState :=
  match activePreset with
  | None => Ok prev
  | Some ap =>
      if decide (index < 0) then Ok prev
      else if decide (index >= js_length (phases ap)) then Ok prev
      else enterPhase (phases ap) index false paused
  end.

(** The state the preset-change effect installs, lines 228-243. *)
Definition initialize (activePreset : option Preset) : result TimerState :=
  match activePreset with
  | Some ap =>
      if decide (js_length (phases ap) > 0) then
        enterPhase (phases ap) 0 false idle
      else Ok initialState
  | None => Ok initialState
  end.

End Engine.

(** ** TimerContext.tsx: the provider, its effects and the two stores *)

Module Provider.

(** What [TimerProvider] holds between renders, together with the two
    stores it reads and writes: the [localStorage] slot
    [pomodoro_timer_state] and the Firestore documents
    [users/<uid>/timerState/current]. [pendingLoads] holds what the
    [loadTimerStateFirebase] calls still awaited have read. *)
Record Provider : Type := mkProvider {
  user : option string;
  presets : list Preset;
  activePresetId : option string;
  syncTimerStateRef : bool;
  timerState : TimerState;
  hasRestoredState : bool;
  restoredPresetIdRef : option string;
  localStorage : option PersistedTimerState;
  firebase : gmap string PersistedTimerState;
  pendingLoads : list (option PersistedTimerState)
}.

Definition setTimerState (s : TimerState) (w : Provider) : Provider :=
  {| user := user w; presets := presets w;
     activePresetId := activePresetId w;
     syncTimerStateRef := syncTimerStateRef w;
     timerState := s;
     hasRestoredState := hasRestoredState w;
     restoredPresetIdRef := restoredPresetIdRef w;
     localStorage := localStorage w; firebase := firebase w;
     pendingLoads := pendingLoads w |}.

Definition setHasRestoredState (b : bool) (w : Provider) : Provider :=
  {| user := user w; presets := presets w;
     activePresetId := activePresetId w;
     syncTimerStateRef := syncTimerStateRef w;
     timerState := timerState w;
     hasRestoredState := b;
     restoredPresetIdRef := restoredPresetIdRef w;
     localStorage := localStorage w; firebase := firebase w;
     pendingLoads := pendingLoads w |}.

Definition setRestoredPresetIdRef (r : option string) (w : Provider)
  : Provider :=
  {| user := user w; presets := presets w;
     activePresetId := activePresetId w;
     syncTimerStateRef := syncTimerStateRef w;
     timerState := timerState w;
     hasRestoredState := hasRestoredState w;
     restoredPresetIdRef := r;
     localStorage := localStorage w; firebase := firebase w;
     pendingLoads := pendingLoads w |}.

(** [saveTimerStateLocal], timerPersistence.ts lines 18-26, in the
    browser and with a [setItem] that does not throw (a throw is caught
    and logged, and the slot keeps what it held). *)
Definition saveTimerStateLocal (state : PersistedTimerState) (w : Provider)
  : Provider :=
  {| user := user w; presets := presets w;
     activePresetId := activePresetId w;
     syncTimerStateRef := syncTimerStateRef w;
     timerState := timerState w;
     hasRestoredState := hasRestoredState w;
     restoredPresetIdRef := restoredPresetIdRef w;
     localStorage := Some state; firebase := firebase w;
     pendingLoads := pendingLoads w |}.

(** [saveTimerStateFirebase], timerPersistence.ts lines 56-66. The call
    is not awaited and its failure is only logged: [delivered] tells
    whether [setDoc] landed. *)
Definition saveTimerStateFirebase (delivered : bool) (userId : string)
    (state : PersistedTimerState) (w : Provider) : Provider :=
  {| user := user w; presets := presets w;
     activePresetId := activePresetId w;
     syncTimerStateRef := syncTimerStateRef w;
     timerState := timerState w;
     hasRestoredState := hasRestoredState w;
     restoredPresetIdRef := restoredPresetIdRef w;
     localStorage := localStorage w;
     firebase := if delivered then <[userId := state]> (firebase w)
                 else firebase w;
     pendingLoads := pendingLoads w |}.

(** What the subscriptions of lines 161-186 and [useAuth] deliver:
    a new user, preset list, active preset id and sync preference. *)
Definition setEnvironment (u : option string) (ps : list Preset)
    (id : option string) (sync : bool) (w : Provider) : Provider :=
  {| user := u; presets := ps; activePresetId := id;
     syncTimerStateRef := sync;
     timerState := timerState w;
     hasRestoredState := hasRestoredState w;
     restoredPresetIdRef := restoredPresetIdRef w;
     localStorage := localStorage w; firebase := firebase w;
     pendingLoads := pendingLoads w |}.

(** [activePreset], line 149:
    [presets.find((p) => p.id === activePresetId) || null]. *)
Definition activePreset (w : Provider) : option Preset :=
  match activePresetId w with
  | Some id => List.find (fun p => bool_decide (presetId p = id)) (presets w)
  | None => None
  end.

(** The [TimerState] projection of a snapshot (lines 106-111, 201-206). *)
Definition timerStateOf (s : PersistedTimerState) : TimerState :=
  {| totalSeconds := p_totalSeconds s;
     isRunning := p_isRunning s;
     status := p_status s;
     currentPhaseIndex := p_currentPhaseIndex s |}.

(** [getInitialTimerState], lines 93-122, in the browser
    ([window] defined): the state, [restored] and [savedPresetId]. *)
Definition getInitialTimerState (now : Z)
    (local : option PersistedTimerState)
  : TimerState * bool * option string :=
  match local with
  | Some savedState =>
      let restoredState := Persistence.calculateRestoredState now savedState in
      (timerStateOf restoredState, true, p_activePresetId restoredState)
  | None => (Engine.initialState, false, None)
  end.

(** Mounting [TimerProvider] (lines 125-146) over the stores as they
    are: the [useState] and [useRef] initial values. *)
Definition mount (now : Z) (u : option string)
    (local : option PersistedTimerState)
    (remote : gmap string PersistedTimerState) : Provider :=
  let initialData := getInitialTimerState now local in
  {| user := u; presets := []; activePresetId := None;
     syncTimerStateRef := false;
     timerState := initialData.1.1;
     hasRestoredState := initialData.1.2;
     restoredPresetIdRef := initialData.2;
     localStorage := local; firebase := remote; pendingLoads := [] |}.

(** [loadFirebaseState] after its [await], lines 195-212.
    [firebaseState] is what [loadTimerStateFirebase(user.uid)] resolved
    to: [None] for a missing document and for a failed read alike. *)
Definition adoptIfNewer (now : Z)
    (firebaseState : option PersistedTimerState) (w : Provider) : Provider :=
  let localState := localStorage w in
  match firebaseState with
  | None => w
  | Some fs =>
      if match localState with
         | None => true
         | Some ls => bool_decide (p_savedAt fs > p_savedAt ls)
         end
      then
        let restoredState := Persistence.calculateRestoredState now fs in
        saveTimerStateLocal restoredState
          (setRestoredPresetIdRef (p_activePresetId restoredState)
             (setHasRestoredState true
                (setTimerState (timerStateOf restoredState) w)))
      else w
  end.

(** [loadFirebaseState], lines 190-213, run in one go. *)
Definition loadFirebaseState (now : Z)
    (firebaseState : option PersistedTimerState) (w : Provider) : Provider :=
  match user w with
  | None => w
  | Some _ =>
      if negb (syncTimerStateRef w) then w
      else adoptIfNewer now firebaseState w
  end.

(** The read of line 194 is issued and its result awaited. *)
Definition awaitLoad (fetched : option PersistedTimerState) (w : Provider)
  : Provider :=
  {| user := user w; presets := presets w;
     activePresetId := activePresetId w;
     syncTimerStateRef := syncTimerStateRef w;
     timerState := timerState w;
     hasRestoredState := hasRestoredState w;
     restoredPresetIdRef := restoredPresetIdRef w;
     localStorage := localStorage w; firebase := firebase w;
     pendingLoads := fetched :: pendingLoads w |}.

(** One run of the effect of lines 219-244. *)
Definition initEffect (w : Provider) : result Provider :=
  if hasRestoredState w
     && bool_decide (restoredPresetIdRef w = activePresetId w)
  then Ok (setHasRestoredState false w)
  else
    match Engine.initialize (activePreset w) with
    | Ok s => Ok (setTimerState s w)
    | TypeError => TypeError
    end.

(** The dependency array of that effect, line 244. *)
Definition initEffectDeps (w : Provider)
  : option Preset * option string * bool :=
  (activePreset w, activePresetId w, hasRestoredState w).

(** [useEffect(f, deps)]: [f] runs after the first render, and after
    a later render when a dependency differs from its value at the
    render [f] last ran in; what [f] sets causes a further render, after
    which the same test applies. [lastDeps] are the dependencies of the
    last run ([None] before the first), [fuel] bounds the number of
    renders. *)
Fixpoint flushInitEffect (fuel : nat)
    (lastDeps : option (option Preset * option string * bool))
    (w : Provider) : result Provider :=
  match fuel with
  | O => Ok w
  | S fuel' =>
      if decide (lastDeps = Some (initEffectDeps w)) then Ok w
      else
        match initEffect w with
        | Ok w' => flushInitEffect fuel' (Some (initEffectDeps w)) w'
        | TypeError => TypeError
        end
  end.

(** The snapshot both save paths build (lines 253-259 and 273-279). *)
Definition currentSnapshot (now : Z) (w : Provider) : PersistedTimerState :=
  Persistence.createPersistedState now
    (totalSeconds (timerState w)) (currentPhaseIndex (timerState w))
    (status (timerState w)) (activePresetId w) (isRunning (timerState w)).

(** [!activePresetId]: true for [null] and for the empty string. *)
Definition noPresetId (id : option string) : bool :=
  match id with
  | None => true
  | Some s => bool_decide (s = EmptyString)
  end.

(** The save effect, lines 247-268. *)
Definition saveEffect (now : Z) (delivered : bool) (w : Provider)
  : Provider :=
  if bool_decide (status (timerState w) = idle)
     && bool_decide (totalSeconds (timerState w) = 0)
     && noPresetId (activePresetId w)
  then w
  else
    let persistedState := currentSnapshot now w in
    let w1 := saveTimerStateLocal persistedState w in
    if syncTimerStateRef w1 then
      match user w1 with
      | Some uid => saveTimerStateFirebase delivered uid persistedState w1
      | None => w1
      end
    else w1.

(** [handleBeforeUnload], lines 272-284. *)
Definition handleBeforeUnload (now : Z) (w : Provider) : Provider :=
  saveTimerStateLocal (currentSnapshot now w) w.

(** Everything that can happen to a provider and its stores: the
    controls, the tick, the effects, a change of what the subscriptions
    deliver, the two halves of [loadFirebaseState] around its [await],
    and a page reload. *)
Inductive step : Provider -> Provider -> Prop :=
  | step_start w s :
      Engine.start (activePreset w) (timerState w) = Ok s ->
      step w (setTimerState s w)
  | step_pause w s :
      Engine.pause (timerState w) = Ok s ->
      step w (setTimerState s w)
  | step_reset w s :
      Engine.reset (activePreset w) (timerState w) = Ok s ->
      step w (setTimerState s w)
  | step_skipToNextPhase w s :
      Engine.skipToNextPhase (activePreset w) (timerState w) = Ok s ->
      step w (setTimerState s w)
  | step_skipToPreviousPhase w s :
      Engine.skipToPreviousPhase (activePreset w) (timerState w) = Ok s ->
      step w (setTimerState s w)
  | step_goToPhase w index s :
      Engine.goToPhase (activePreset w) index (timerState w) = Ok s ->
      step w (setTimerState s w)
  | step_tick w s :
      Engine.tick (activePreset w) (timerState w) = Ok s ->
      step w (setTimerState s w)
  | step_initEffect w w' :
      initEffect w = Ok w' ->
      step w w'
  | step_saveEffect w now delivered :
      step w (saveEffect now delivered w)
  | step_beforeUnload w now :
      step w (handleBeforeUnload now w)
  | step_loadRequest w uid fetched :
      user w = Some uid ->
      syncTimerStateRef w = true ->
      (fetched = None \/ fetched = firebase w !! uid) ->
      step w (awaitLoad fetched w)
  | step_loadResume w now fetched :
      fetched ∈ pendingLoads w ->
      step w (adoptIfNewer now fetched w)
  | step_environment w u ps id sync :
      step w (setEnvironment u ps id sync w)
  | step_mount w now u :
      step w (mount now u (localStorage w) (firebase w)).

(** The first mount, over empty stores. *)
Definition boot (now : Z) (u : option string) : Provider :=
  mount now u None ∅.

Inductive reachable : Provider -> Prop :=
  | reachable_boot now u : reachable (boot now u)
  | reachable_step w w' : reachable w -> step w w' -> reachable w'.

End Provider.

(** ** Concrete presets, snapshots and runs *)

Module Scenarios.

Import Provider.

(** [n] ticks in a row. *)
Fixpoint ticks (n : nat) (activePreset : option Preset) (s : TimerState)
  : result TimerState :=
  match n with
  | O => Ok s
  | S n' =>
      match Engine.tick activePreset s with
      | Ok s' => ticks n' activePreset s'
      | TypeError => TypeError
      end
  end.

Definition work1 : Phase :=
  {| phaseId := "a"; phaseName := "Work"; durationMinutes := 1;
     phaseOrder := 0 |}.

Definition break1 : Phase :=
  {| phaseId := "b"; phaseName := "Break"; durationMinutes := 1;
     phaseOrder := 1 |}.

(** The two-phase preset [Work: 1 min, Break: 1 min]. *)
Definition workBreak (loop : bool) : Preset :=
  {| presetId := "p1"; presetName := "Work and break";
     phases := [work1; break1]; loopPhases := loop |}.

(** A preset whose phase list is empty. *)
Definition noPhases (loop : bool) : Preset :=
  {| presetId := "p0"; presetName := "Empty"; phases := [];
     loopPhases := loop |}.

(** A timer paused in the break with five minutes to go, as saved for
    preset [p1] at time 1000. *)
Definition pausedInBreak : PersistedTimerState :=
  {| p_totalSeconds := 300; p_currentPhaseIndex := 1; p_status := paused;
     p_activePresetId := Some "p1"; p_savedAt := 1000;
     p_isRunning := false |}.

(** A running countdown with 100 seconds to go, saved at time [t]. *)
Definition runningAt (t : Z) : PersistedTimerState :=
  {| p_totalSeconds := 100; p_currentPhaseIndex := 0; p_status := running;
     p_activePresetId := Some "p1"; p_savedAt := t; p_isRunning := true |}.

(** The first phase of [workBreak], not started, as saved at time 500. *)
Definition idleAtWork : PersistedTimerState :=
  {| p_totalSeconds := 60; p_currentPhaseIndex := 0; p_status := idle;
     p_activePresetId := Some "p1"; p_savedAt := 500;
     p_isRunning := false |}.

(** A signed-in session with sync on and preset [p1] active and
    initialised: [idleAtWork] is stored locally and [remote] is stored
    for the user. *)
Definition session (remote : PersistedTimerState) : Provider :=
  {| user := Some "u"; presets := [workBreak false];
     activePresetId := Some "p1"; syncTimerStateRef := true;
     timerState := {| totalSeconds := 60; isRunning := false;
                      status := idle; currentPhaseIndex := 0 |};
     hasRestoredState := false; restoredPresetIdRef := None;
     localStorage := Some idleAtWork; firebase := {[ "u" := remote ]};
     pendingLoads := [] |}.

(** [session] after [loadFirebaseState] at time 5000 has read the
    remote snapshot [pausedInBreak]. *)
Definition adopted : Provider :=
  loadFirebaseState 5000 (Some pausedInBreak) (session pausedInBreak).

(** A first mount, then the subscriptions deliver user, presets, the
    active preset id and the sync preference. *)
Definition signedIn : Provider :=
  setEnvironment (Some "u") [workBreak false] (Some "p1") true
    (boot 0 None).

(** [signedIn] after [start]. *)
Definition started : Provider :=
  setTimerState
    {| totalSeconds := 60; isRunning := true; status := running;
       currentPhaseIndex := 0 |} signedIn.

End Scenarios.

(** ** The invariant of the timer state *)

Module Invariant.

Import Provider.

(** Running means [status = running]; completed means stopped at
    zero. *)
Definition timerInvariant (s : TimerState) : Prop :=
  (isRunning s = true -> status s = running) /\
  (status s = completed -> totalSeconds s = 0 /\ isRunning s = false).

(** The phase index is never negative. *)
Definition indexInvariant (s : TimerState) : Prop :=
  0 <= currentPhaseIndex s.

(** [P] holds of the timer state and of every snapshot stored or in
    flight. *)
Definition holdsEverywhere (P : TimerState -> Prop) (w : Provider) : Prop :=
  P (timerState w) /\
  (forall ls, localStorage w = Some ls -> P (timerStateOf ls)) /\
  (forall uid fs, firebase w !! uid = Some fs -> P (timerStateOf fs)) /\
  (forall fs, Some fs ∈ pendingLoads w -> P (timerStateOf fs)).

End Invariant.

(** ** Schedules: what a preset's phases add up to *)

Module Schedule.

(** The phase index points into the phase list of [ap]. *)
Definition phaseInRange (ap : Preset) (s : TimerState) : Prop :=
  0 <= currentPhaseIndex s < js_length (phases ap).

(** The seconds of one pass through [ps]: the sum of
    [durationMinutes * 60]. *)
Definition cycleSeconds (ps : list Phase) : Z :=
  foldr (fun phase acc => durationMinutes phase * 60 + acc) 0 ps.

(** The running state in phase [index] with [t] seconds to go. *)
Definition runningIn (index : Z) (t : Z) : TimerState :=
  {| totalSeconds := t; isRunning := true; status := running;
     currentPhaseIndex := index |}.

End Schedule.

(** ** TimerContext.tsx and useTimer: the displayed time *)

Module Display.

(** JavaScript [a % b] on integers: the remainder has the sign of
    [a]. *)
Definition js_rem (a b : Z) : Z := Z.rem a b.

(** The result of [secondsToTime]. *)
Record Time : Type := mkTime {
  hours : Z;
  minutes : Z;
  seconds : Z
}.

(** [secondsToTime], TimerContext.tsx lines 81-90 (and the same
    function in the [useTimer] hook). *)
Definition secondsToTime (totalSeconds : Z) : Time :=
  {| hours := totalSeconds / 3600;
     minutes := js_rem totalSeconds 3600 / 60;
     seconds := js_rem totalSeconds 60 |}.

(** The character of the decimal digit [d]. *)
Definition digitChar (d : Z) : Ascii.ascii :=
  Ascii.ascii_of_nat (48 + Z.to_nat d).

(** The decimal digits of [n > 0] in front of [acc], least significant
    digit first into the accumulator; [fuel] bounds their number. *)
Fixpoint decimalDigits (fuel : nat) (n : Z) (acc : string) : string :=
  match fuel with
  | O => acc
  | S fuel' =>
      let acc' := String (digitChar (n mod 10)) acc in
      if decide (n / 10 = 0) then acc'
      else decimalDigits fuel' (n / 10) acc'
  end.

(** [n.toString()] for an integer [n]: its decimal digits, after a
    minus sign when it is negative. A number has no more decimal than
    binary digits. *)
Definition toString (n : Z) : string :=
  if decide (n < 0)
  then String "-"%char (decimalDigits (S (Z.to_nat (Z.log2 (- n)))) (- n) EmptyString)
  else decimalDigits (S (Z.to_nat (Z.log2 n))) n EmptyString.

(** [s.padStart(targetLength, pad)] for a one-character [pad]. *)
Definition padStart (targetLength : nat) (pad : Ascii.ascii) (s : string)
  : string :=
  String.string_of_list_ascii (replicate (targetLength - String.length s) pad)
  +:+ s.

(** [formatTimeDigits], TimerContext.tsx lines 74-79: the characters of
    the three padded numbers. *)
Definition formatTimeDigits (hours minutes seconds : Z) : list Ascii.ascii :=
  let h := padStart 2 "0"%char (toString hours) in
  let m := padStart 2 "0"%char (toString minutes) in
  let s := padStart 2 "0"%char (toString seconds) in
  String.list_ascii_of_string (h +:+ m +:+ s).

(** [formattedTime], TimerContext.tsx lines 477-479. *)
Definition formattedTime (hours minutes seconds : Z) : string :=
  padStart 2 "0"%char (toString hours) +:+ ":" +:+
  padStart 2 "0"%char (toString minutes) +:+ ":" +:+
  padStart 2 "0"%char (toString seconds).

(** [digits] as the provider exposes it, lines 475-476. *)
Definition digits (totalSeconds : Z) : list Ascii.ascii :=
  let t := secondsToTime totalSeconds in
  formatTimeDigits (hours t) (minutes t) (seconds t).

(** [formattedTime] as the provider exposes it. *)
Definition formatted (totalSeconds : Z) : string :=
  let t := secondsToTime totalSeconds in
  formattedTime (hours t) (minutes t) (seconds t).

End Display.

(** ** The [useTimer] hook (src/hooks/useTimeTracker.ts, second part) *)

Module HookTimer.

(** [TimerMode], line 147. *)
Inductive TimerMode : Type :=
  | clock
  | countdown.

Global Instance TimerMode_eq_dec : EqDecision TimerMode.
Proof. solve_decision. Defined.

(** What one [useTimer] holds: its two pieces of state, the ref
    [initialSecondsRef], and how often [onComplete] has been called. *)
Record HookState : Type := mkHookState {
  totalSeconds : Z;
  isRunning : bool;
  initialSecondsRef : Z;
  onCompleteCalls : nat
}.

(** The seconds since midnight of a local time, lines 198 and 222. *)
Definition clockSeconds (h m s : Z) : Z := h * 3600 + m * 60 + s.

(** The initial state, lines 195-205, at local time [h:m:s]. *)
Definition init (mode : TimerMode) (initialSeconds : Z) (h m s : Z)
  : HookState :=
  {| totalSeconds :=
       match mode with
       | clock => clockSeconds h m s
       | countdown => initialSeconds
       end;
     isRunning := bool_decide (mode = clock);
     initialSecondsRef := initialSeconds;
     onCompleteCalls := 0 |}.

(** [updateClock], lines 220-223, at local time [h:m:s]. *)
Definition updateClock (h m s : Z) (st : HookState) : HookState :=
  {| totalSeconds := clockSeconds h m s;
     isRunning := isRunning st;
     initialSecondsRef := initialSecondsRef st;
     onCompleteCalls := onCompleteCalls st |}.

(** The countdown interval callback, lines 234-243. *)
Definition countdownTick (st : HookState) : HookState :=
  if decide (totalSeconds st <= 1) then
    {| totalSeconds := 0;
       isRunning := false;
       initialSecondsRef := initialSecondsRef st;
       onCompleteCalls := S (onCompleteCalls st) |}
  else
    {| totalSeconds := totalSeconds st - 1;
       isRunning := isRunning st;
       initialSecondsRef := initialSecondsRef st;
       onCompleteCalls := onCompleteCalls st |}.

(** A second passes in countdown mode: the interval of lines 231-246
    exists, and fires, only while [isRunning]. *)
Definition countdownSecond (mode : TimerMode) (st : HookState)
  : HookState :=
  if bool_decide (mode = countdown) && isRunning st
  then countdownTick st
  else st.

(** [n] seconds pass. *)
Fixpoint countdownSeconds (n : nat) (mode : TimerMode) (st : HookState)
  : HookState :=
  match n with
  | O => st
  | S n' => countdownSeconds n' mode (countdownSecond mode st)
  end.

(** [start], lines 250-255. *)
Definition start (mode : TimerMode) (st : HookState) : HookState :=
  {| totalSeconds :=
       if bool_decide (mode = countdown)
          && bool_decide (totalSeconds st = 0)
       then initialSecondsRef st
       else totalSeconds st;
     isRunning := true;
     initialSecondsRef := initialSecondsRef st;
     onCompleteCalls := onCompleteCalls st |}.

(** [pause], lines 257-261. *)
Definition pause (mode : TimerMode) (st : HookState) : HookState :=
  match mode with
  | countdown =>
      {| totalSeconds := totalSeconds st;
         isRunning := false;
         initialSecondsRef := initialSecondsRef st;
         onCompleteCalls := onCompleteCalls st |}
  | clock => st
  end.

(** [reset], lines 263-268. *)
Definition reset (mode : TimerMode) (st : HookState) : HookState :=
  match mode with
  | countdown =>
      {| totalSeconds := initialSecondsRef st;
         isRunning := false;
         initialSecondsRef := initialSecondsRef st;
         onCompleteCalls := onCompleteCalls st |}
  | clock => st
  end.

(** [setTime], lines 270-276. *)
Definition setTime (mode : TimerMode) (newSeconds : Z) (st : HookState)
  : HookState :=
  match mode with
  | countdown =>
      {| totalSeconds := newSeconds;
         isRunning := false;
         initialSecondsRef := newSeconds;
         onCompleteCalls := onCompleteCalls st |}
  | clock => st
  end.

End HookTimer.

(** ** The presets library (src/unnamed/part_002) *)

Module PresetsLib.

(** [Phase], lines 18-24, with every field. *)
Record PhaseData : Type := mkPhaseData {
  phase_id : string;
  phase_name : string;
  phase_durationMinutes : Z;
  phase_startTime : option string;
  phase_order : Z
}.

Global Instance PhaseData_eq_dec : EqDecision PhaseData.
Proof. solve_decision. Defined.

(** [Preset], lines 26-39, as a stored document may have it: a legacy
    document has no [phases] and no [loopPhases]. [createdAt] is the
    timestamp's seconds. *)
Record PresetData : Type := mkPresetData {
  preset_id : string;
  preset_name : string;
  preset_phases : option (list PhaseData);
  preset_loopPhases : option bool;
  preset_color : option string;
  preset_createdAt : Z;
  preset_order : Z;
  workMinutes : option Z;
  breakMinutes : option Z;
  scheduledStart : option string;
  scheduledEnd : option string
}.

(** [{ ...preset, phases, loopPhases: false }], lines 90-101. *)
Definition withPhases (ps : list PhaseData) (preset : PresetData)
  : PresetData :=
  {| preset_id := preset_id preset;
     preset_name := preset_name preset;
     preset_phases := Some ps;
     preset_loopPhases := Some false;
     preset_color := preset_color preset;
     preset_createdAt := preset_createdAt preset;
     preset_order := preset_order preset;
     workMinutes := workMinutes preset;
     breakMinutes := breakMinutes preset;
     scheduledStart := scheduledStart preset;
     scheduledEnd := scheduledEnd preset |}.

(** [createDefaultPhases], lines 52-57. [fresh k] is what the [k]-th
    call of [generatePhaseId] returns. *)
Definition createDefaultPhases (fresh : nat -> string) : list PhaseData :=
  [ {| phase_id := fresh 0%nat; phase_name := "Work";
       phase_durationMinutes := 25; phase_startTime := None;
       phase_order := 0 |};
    {| phase_id := fresh 1%nat; phase_name := "Break";
       phase_durationMinutes := 5; phase_startTime := None;
       phase_order := 1 |} ].

(** [migratePreset], lines 60-102. *)
Definition migratePreset (fresh : nat -> string) (preset : PresetData)
  : PresetData :=
  match preset_phases preset with
  | Some (_ :: _) => preset
  | _ =>
      let work :=
        match workMinutes preset with
        | Some minutes =>
            [ {| phase_id := fresh 0%nat; phase_name := "Work";
                 phase_durationMinutes := minutes;
                 phase_startTime := scheduledStart preset;
                 phase_order := 0 |} ]
        | None => []
        end in
      let phases :=
        match breakMinutes preset with
        | Some minutes =>
            work ++
            [ {| phase_id := fresh (length work); phase_name := "Break";
                 phase_durationMinutes := minutes;
                 phase_startTime := None;
                 phase_order := 1 |} ]
        | None => work
        end in
      if decide (length phases = 0%nat)
      then withPhases (createDefaultPhases fresh) preset
      else withPhases phases preset
  end.

(** What the engine reads of a phase and of a preset; a missing
    [loopPhases] is falsy, a missing [phases] has no elements. *)
Definition toPhase (p : PhaseData) : Phase :=
  {| phaseId := phase_id p; phaseName := phase_name p;
     durationMinutes := phase_durationMinutes p;
     phaseOrder := phase_order p |}.

Definition toPreset (preset : PresetData) : Preset :=
  {| presetId := preset_id preset;
     presetName := preset_name preset;
     phases := toPhase <$> default [] (preset_phases preset);
     loopPhases := default false (preset_loopPhases preset) |}.

(** Every phase carries its position as [order]. *)
Definition ordered (ps : list PhaseData) : Prop :=
  forall (i : nat) (p : PhaseData),
    ps !! i = Some p -> phase_order p = Z.of_nat i.

End PresetsLib.

(** ** The preset editor (src/components/PhaseListEditor) *)

Module Editor.

Import PresetsLib.

(** [{ ...phase, order: index }] *)
Definition withOrder (index : nat) (p : PhaseData) : PhaseData :=
  {| phase_id := phase_id p; phase_name := phase_name p;
     phase_durationMinutes := phase_durationMinutes p;
     phase_startTime := phase_startTime p;
     phase_order := Z.of_nat index |}.

(** [.map((phase, index) => ({ ...phase, order: index }))] *)
Definition reindex (ps : list PhaseData) : list PhaseData :=
  imap withOrder ps.

(** [handleAddPhase], PhaseListEditor.tsx lines 63-71; [newId] is what
    [generatePhaseId] returns. *)
Definition handleAddPhase (newId : string) (ps : list PhaseData)
  : list PhaseData :=
  ps ++ [ {| phase_id := newId; phase_name := EmptyString;
             phase_durationMinutes := 25; phase_startTime := None;
             phase_order := js_length ps |} ].

(** [handleDeletePhase], lines 80-88: the list handed to [onChange],
    or the list as it was when nothing is handed on. *)
Definition handleDeletePhase (id : string) (ps : list PhaseData)
  : list PhaseData :=
  if decide (js_length ps <= 1) then ps
  else reindex (filter (fun p => phase_id p <> id) ps).

(** [phases.findIndex((p) => p.id === id)]: [-1] when there is none. *)
Fixpoint findIndex (id : string) (ps : list PhaseData) : Z :=
  match ps with
  | [] => -1
  | p :: rest =>
      if decide (phase_id p = id) then 0
      else
        let i := findIndex id rest in
        if decide (i < 0) then -1 else i + 1
  end.

(** [handleDragEnd], lines 45-61, over the library's [arrayMove];
    [over] is the id of the item dropped onto, if any. *)
Definition handleDragEnd
    (arrayMove : list PhaseData -> Z -> Z -> list PhaseData)
    (active : string) (over : option string) (ps : list PhaseData)
  : list PhaseData :=
  match over with
  | Some overId =>
      if decide (active <> overId) then
        let oldIndex := findIndex active ps in
        let newIndex := findIndex overId ps in
        reindex (arrayMove ps oldIndex newIndex)
      else ps
  | None => ps
  end.

(** White space as [parseInt] and [trim] see it, among the characters
    a byte can hold. *)
Definition isWhiteSpace (c : ascii) : bool :=
  bool_decide (nat_of_ascii c ∈ [9; 10; 11; 12; 13; 32; 160]%nat).

Definition isDigit (c : ascii) : bool :=
  bool_decide (48 <= nat_of_ascii c <= 57)%nat.

Definition digitValue (c : ascii) : Z := Z.of_nat (nat_of_ascii c) - 48.

Fixpoint skipWhiteSpace (s : string) : string :=
  match s with
  | String c rest => if isWhiteSpace c then skipWhiteSpace rest else s
  | EmptyString => s
  end.

(** The value of the longest prefix of decimal digits; [None] when
    there is no digit. *)
Fixpoint parseDigits (s : string) (value : Z) (seen : bool) : option Z :=
  match s with
  | String c rest =>
      if isDigit c then parseDigits rest (value * 10 + digitValue c) true
      else if seen then Some value else None
  | EmptyString => if seen then Some value else None
  end.

(** [parseInt(s, 10)]; [None] is [NaN]. *)
Definition parseInt (s : string) : option Z :=
  match skipWhiteSpace s with
  | String "-" rest => Z.opp <$> parseDigits rest 0 false
  | String "+" rest => parseDigits rest 0 false
  | trimmed => parseDigits trimmed 0 false
  end.

(** [DEFAULT_DURATION], SortablePhaseItem.tsx line 18. *)
Definition DEFAULT_DURATION : Z := 25.

(** [handleDurationBlur], SortablePhaseItem.tsx lines 63-74: the new
    text of the field and the [durationMinutes] handed to [onUpdate]. *)
Definition handleDurationBlur (durationValue : string) : string * Z :=
  match parseInt durationValue with
  | None => (Display.toString DEFAULT_DURATION, DEFAULT_DURATION)
  | Some parsed =>
      if decide (parsed < 1)
      then (Display.toString DEFAULT_DURATION, DEFAULT_DURATION)
      else
        let clamped := Z.min 180 parsed in
        (Display.toString clamped, clamped)
  end.

(** [s.trim()] *)
Definition trim (s : string) : string :=
  let trimEnd (t : string) :=
    String.string_of_list_ascii
      (reverse
         (String.list_ascii_of_string
            (skipWhiteSpace
               (String.string_of_list_ascii
                  (reverse (String.list_ascii_of_string t)))))) in
  trimEnd (skipWhiteSpace s).

(** The loop of [handleSubmit] over the phases, the [PresetForm] part
    of SortablePhaseItem.tsx, lines 254-264: the first error, if any. *)
Fixpoint validatePhases (ps : list PhaseData) : option string :=
  match ps with
  | [] => None
  | phase :: rest =>
      if decide (trim (phase_name phase) = EmptyString)
      then Some "Please enter a name for each phase"
      else if decide (phase_durationMinutes phase < 1
                      \/ phase_durationMinutes phase > 180)
      then Some "Phase duration must be between 1 and 180 minutes"
      else validatePhases rest
  end.

(** [handleSubmit], lines 240-278 there, up to the call of [onSave]:
    the error shown, or the data saved. *)
Definition handleSubmit (name : string) (ps : list PhaseData)
    (loop : bool) : string + (string * list PhaseData * bool) :=
  if decide (trim name = EmptyString)
  then inl "Please enter a preset name"
  else if decide (js_length ps = 0)
  then inl "Please add at least one phase"
  else
    match validatePhases ps with
    | Some error => inl error
    | None => inr (trim name, ps, loop)
    end.

End Editor.

(** ** Concrete phase lists *)

Module EditorScenarios.

(** Two calls of [generatePhaseId] that return [a] and [b]. *)
Definition twoIds (k : nat) : string :=
  match k with
  | O => "a"
  | S _ => "b"
  end.

(** The default phases of a new preset: Work 25 and Break 5. *)
Definition defaults : list PresetsLib.PhaseData :=
  PresetsLib.createDefaultPhases twoIds.

End EditorScenarios.

(** ** The [useTimeTracker] hook (src/hooks/useTimeTracker.ts) *)

Module Tracker.

(** The refs the tick and the visibility handler read and write. *)
Record Refs : Type := mkRefs {
  isActiveRef : bool;
  lastTickRef : Z;
  elapsedSecondsRef : Z
}.

(** What [startSession], lines 46-62, sets them to at time [now]. *)
Definition startSession (now : Z) : Refs :=
  {| isActiveRef := true; lastTickRef := now; elapsedSecondsRef := 0 |}.

(** [tick], lines 65-74, at time [now]. *)
Definition tick (now : Z) (r : Refs) : Refs :=
  if negb (isActiveRef r) then r
  else
    let delta := (now - lastTickRef r) / 1000 in
    if decide (delta > 0) then
      {| isActiveRef := isActiveRef r;
         lastTickRef := now;
         elapsedSecondsRef := elapsedSecondsRef r + delta |}
    else r.

(** [handleVisibilityChange], lines 77-88, at time [now]; the save it
    starts when the tab is hidden does not touch these refs. *)
Definition handleVisibilityChange (hidden : bool) (now : Z) (r : Refs)
  : Refs :=
  if hidden then
    let r' := tick now r in
    {| isActiveRef := false;
       lastTickRef := lastTickRef r';
       elapsedSecondsRef := elapsedSecondsRef r' |}
  else
    {| isActiveRef := true;
       lastTickRef := now;
       elapsedSecondsRef := elapsedSecondsRef r |}.

(** What happens to the tracker, each at its time. *)
Inductive event : Type :=
  | Tick (now : Z)
  | Visibility (hidden : bool) (now : Z).

Definition timeOf (e : event) : Z :=
  match e with
  | Tick now => now
  | Visibility _ now => now
  end.

Definition handle (e : event) (r : Refs) : Refs :=
  match e with
  | Tick now => tick now r
  | Visibility hidden now => handleVisibilityChange hidden now r
  end.

(** The events of a session, oldest first. *)
Definition run (events : list event) (r : Refs) : Refs :=
  foldl (fun acc e => handle e acc) r events.

(** The times never go back and none is before [start]. *)
Fixpoint inOrder (start : Z) (events : list event) : Prop :=
  match events with
  | [] => True
  | e :: rest => start <= timeOf e /\ inOrder (timeOf e) rest
  end.

(** The time of the last event, [start] when there is none. *)
Definition lastTime (start : Z) (events : list event) : Z :=
  foldl (fun _ e => timeOf e) start events.

End Tracker.

(** * Properties *)

(** ** Reconciliation *)

Section Reconciliation.

Import Persistence.

Variable now : Z.

(** The guard of line 113, read as a proposition. *)
Lemma countingDown_guard (s : PersistedTimerState) :
  negb (p_isRunning s) || negb (bool_decide (p_status s = running)) = false
  <-> p_isRunning s = true /\ p_status s = running.
Proof.
  destruct (p_isRunning s); simpl.
  - rewrite negb_false_iff, bool_decide_eq_true. tauto.
  - split; [discriminate | intros [? _]; discriminate].
Qed.

(** Lines 117-136 for a snapshot that passes the guard. *)
Lemma calculateRestoredState_counting (s : PersistedTimerState) :
  p_isRunning s = true -> p_status s = running ->
  calculateRestoredState now s =
  if decide (Z.max 0 (p_totalSeconds s - (now - p_savedAt s) / 1000) = 0)
  then {| p_totalSeconds := 0;
          p_currentPhaseIndex := p_currentPhaseIndex s;
          p_status := paused;
          p_activePresetId := p_activePresetId s;
          p_savedAt := now;
          p_isRunning := false |}
  else {| p_totalSeconds :=
            Z.max 0 (p_totalSeconds s - (now - p_savedAt s) / 1000);
          p_currentPhaseIndex := p_currentPhaseIndex s;
          p_status := running;
          p_activePresetId := p_activePresetId s;
          p_savedAt := now;
          p_isRunning := true |}.
Proof.
  intros Hrun Hst. unfold calculateRestoredState.
  rewrite (proj2 (countingDown_guard s) (conj Hrun Hst)).
  simpl. rewrite Hrun, Hst. reflexivity.
Qed.

(** A snapshot that counts down is re-stamped with [now]. *)
Lemma calculateRestoredState_savedAt (s : PersistedTimerState) :
  p_isRunning s = true -> p_status s = running ->
  p_savedAt (calculateRestoredState now s) = now.
Proof.
  intros Hrun Hst. rewrite calculateRestoredState_counting by assumption.
  case_decide; reflexivity.
Qed.

(** C2: for a snapshot with [isRunning] and [status = running], with
    [elapsed = floor ((now - savedAt) / 1000)] and
    [adjusted = max 0 (totalSeconds - elapsed)]: when [adjusted > 0] the
    result is the snapshot with [totalSeconds = adjusted] and
    [savedAt = now]; when [adjusted = 0] it is the snapshot with
    [totalSeconds = 0], [isRunning = false], [status = paused] and
    [savedAt = now]; no other field changes. *)
Theorem calculateRestoredState_running (s : PersistedTimerState) :
  p_isRunning s = true ->
  p_status s = running ->
  let elapsed := (now - p_savedAt s) / 1000 in
  let adjusted := Z.max 0 (p_totalSeconds s - elapsed) in
  (adjusted > 0 ->
   calculateRestoredState now s =
   {| p_totalSeconds := adjusted;
      p_currentPhaseIndex := p_currentPhaseIndex s;
      p_status := running;
      p_activePresetId := p_activePresetId s;
      p_savedAt := now;
      p_isRunning := true |})
  /\
  (adjusted = 0 ->
   calculateRestoredState now s =
   {| p_totalSeconds := 0;
      p_currentPhaseIndex := p_currentPhaseIndex s;
      p_status := paused;
      p_activePresetId := p_activePresetId s;
      p_savedAt := now;
      p_isRunning := false |})
  /\ (adjusted > 0 \/ adjusted = 0).
Proof.
  intros Hrun Hst elapsed adjusted.
  rewrite calculateRestoredState_counting by assumption.
  fold elapsed. fold adjusted.
  repeat split.
  - intros Hpos. case_decide; [lia | reflexivity].
  - intros Hzero. case_decide; [reflexivity | contradiction].
  - subst adjusted. lia.
Qed.

(** Lines 113-115 for a snapshot that fails the guard. *)
Lemma calculateRestoredState_not_running_eq (s : PersistedTimerState) :
  p_isRunning s = false \/ p_status s <> running ->
  calculateRestoredState now s = s.
Proof.
  intros Hidle. unfold calculateRestoredState.
  destruct (negb (p_isRunning s)
            || negb (bool_decide (p_status s = running))) eqn:Hguard;
    [reflexivity |].
  apply countingDown_guard in Hguard as [Hrun Hst].
  destruct Hidle; congruence.
Qed.

(** C3: a snapshot that is not running, or whose status is not
    [running], comes back as it is, [savedAt] included, whatever [now]. *)
Theorem calculateRestoredState_not_running (s : PersistedTimerState) :
  p_isRunning s = false \/ p_status s <> running ->
  calculateRestoredState now s = s /\
  p_savedAt (calculateRestoredState now s) = p_savedAt s.
Proof.
  intros Hidle.
  rewrite calculateRestoredState_not_running_eq by assumption.
  split; reflexivity.
Qed.

(** C10: for a snapshot with [isRunning], [status = running] and
    [savedAt] later than [now], the elapsed time is negative and is not
    clamped: the result has [totalSeconds] strictly larger than saved,
    by at least one second, and [savedAt = now]; when the saved
    [totalSeconds] is not negative the result is the snapshot with
    [totalSeconds - elapsed] and [savedAt = now], still [isRunning] with
    [status = running], the other fields as they were. *)
Theorem calculateRestoredState_future_savedAt (s : PersistedTimerState) :
  p_isRunning s = true ->
  p_status s = running ->
  p_savedAt s > now ->
  let elapsed := (now - p_savedAt s) / 1000 in
  elapsed <= -1 /\
  p_totalSeconds (calculateRestoredState now s) > p_totalSeconds s /\
  p_totalSeconds (calculateRestoredState now s) >= p_totalSeconds s + 1 /\
  p_savedAt (calculateRestoredState now s) = now /\
  (0 <= p_totalSeconds s ->
   calculateRestoredState now s =
   {| p_totalSeconds := p_totalSeconds s - elapsed;
      p_currentPhaseIndex := p_currentPhaseIndex s;
      p_status := running;
      p_activePresetId := p_activePresetId s;
      p_savedAt := now;
      p_isRunning := true |}).
Proof.
  intros Hrun Hst Hfuture elapsed.
  assert (Helapsed : elapsed <= -1).
  { subst elapsed.
    assert ((now - p_savedAt s) / 1000 < 0); [| lia].
    apply Z.div_lt_upper_bound; lia. }
  rewrite calculateRestoredState_counting by assumption.
  fold elapsed.
  split; [exact Helapsed |].
  case_decide as Hzero; simpl.
  - repeat split; try lia.
  - repeat split; try lia.
    intros Hnonneg.
    replace (Z.max 0 (p_totalSeconds s - elapsed))
      with (p_totalSeconds s - elapsed) by lia.
    reflexivity.
Qed.

End Reconciliation.

(** The two reconciliation examples of the specification. *)
Example reconcile_within_budget :
  Persistence.calculateRestoredState 41000 (Scenarios.runningAt 1000) =
  {| p_totalSeconds := 60; p_currentPhaseIndex := 0; p_status := running;
     p_activePresetId := Some "p1"; p_savedAt := 41000;
     p_isRunning := true |}.
Proof. reflexivity. Qed.

Example reconcile_expired :
  Persistence.calculateRestoredState 46000
    {| p_totalSeconds := 30; p_currentPhaseIndex := 0; p_status := running;
       p_activePresetId := None; p_savedAt := 1000; p_isRunning := true |} =
  {| p_totalSeconds := 0; p_currentPhaseIndex := 0; p_status := paused;
     p_activePresetId := None; p_savedAt := 46000; p_isRunning := false |}.
Proof. reflexivity. Qed.

(** Outside the data model: with a negative [totalSeconds] a snapshot
    saved in the future can still come back stopped. *)
Example reconcile_negative_remaining :
  Persistence.calculateRestoredState 0
    {| p_totalSeconds := -5; p_currentPhaseIndex := 0; p_status := running;
       p_activePresetId := None; p_savedAt := 1; p_isRunning := true |} =
  {| p_totalSeconds := 0; p_currentPhaseIndex := 0; p_status := paused;
     p_activePresetId := None; p_savedAt := 0; p_isRunning := false |}.
Proof. reflexivity. Qed.

Lemma calculateRestoredState_running_witness :
  Persistence.calculateRestoredState 41000 (Scenarios.runningAt 1000) =
  {| p_totalSeconds := 60; p_currentPhaseIndex := 0; p_status := running;
     p_activePresetId := Some "p1"; p_savedAt := 41000;
     p_isRunning := true |}.
Proof.
  apply (calculateRestoredState_running 41000 (Scenarios.runningAt 1000)
           eq_refl eq_refl).
  reflexivity.
Defined.

Lemma calculateRestoredState_not_running_witness :
  Persistence.calculateRestoredState 99000 Scenarios.pausedInBreak =
  Scenarios.pausedInBreak.
Proof.
  apply (calculateRestoredState_not_running 99000 Scenarios.pausedInBreak).
  left. reflexivity.
Defined.

Lemma calculateRestoredState_future_savedAt_witness :
  Persistence.calculateRestoredState 1000 (Scenarios.runningAt 3500) =
  {| p_totalSeconds := 103; p_currentPhaseIndex := 0; p_status := running;
     p_activePresetId := Some "p1"; p_savedAt := 1000;
     p_isRunning := true |}.
Proof.
  apply (calculateRestoredState_future_savedAt 1000 (Scenarios.runningAt 3500));
    [reflexivity | reflexivity | reflexivity | discriminate].
Defined.

(** ** The countdown engine *)

Section ArrayAccess.

Context {A : Type}.

Lemma js_index_in_range (arr : list A) (i : Z) :
  0 <= i < js_length arr -> is_Some (js_index arr i).
Proof.
  intros [Hlo Hhi]. unfold js_index, js_length in *.
  rewrite decide_True by assumption.
  apply lookup_lt_is_Some. lia.
Qed.

Lemma js_index_out_of_range (arr : list A) (i : Z) :
  i < 0 \/ js_length arr <= i -> js_index arr i = None.
Proof.
  intros Hout. unfold js_index, js_length in *.
  case_decide; [| reflexivity].
  apply lookup_ge_None. lia.
Qed.

Lemma js_length_zero (arr : list A) : js_length arr = 0 <-> arr = [].
Proof.
  unfold js_length. destruct arr; simpl; split; intros; try done; lia.
Qed.

End ArrayAccess.

Section Tick.

Import Engine.

(** C1: the tick under an active preset, from any state, running or
    not. Above one second it takes exactly one second off, which stays
    non-negative, and leaves [isRunning], [status] and
    [currentPhaseIndex] alone. At one second or less, from a phase index
    that is not negative: when phase [currentPhaseIndex + 1] exists it
    moves there with that phase's [durationMinutes * 60], running; when
    it does not and [loopPhases] holds it moves to phase 0 of a preset
    that has phases, with its full duration, running; otherwise it stops
    with [totalSeconds = 0], [isRunning = false], [status = completed]. *)
Theorem tick_spec (ap : Preset) (prev : TimerState) :
  (totalSeconds prev > 1 ->
   tick (Some ap) prev =
   Ok {| totalSeconds := totalSeconds prev - 1;
         isRunning := isRunning prev;
         status := status prev;
         currentPhaseIndex := currentPhaseIndex prev |}
   /\ 0 <= totalSeconds prev - 1)
  /\
  (totalSeconds prev <= 1 ->
   0 <= currentPhaseIndex prev ->
   match js_index (phases ap) (currentPhaseIndex prev + 1) with
   | Some nextPhase =>
       tick (Some ap) prev =
       Ok {| totalSeconds := durationMinutes nextPhase * 60;
             isRunning := true;
             status := running;
             currentPhaseIndex := currentPhaseIndex prev + 1 |}
   | None =>
       if loopPhases ap then
         phases ap <> [] ->
         exists firstPhase,
           js_index (phases ap) 0 = Some firstPhase /\
           tick (Some ap) prev =
           Ok {| totalSeconds := durationMinutes firstPhase * 60;
                 isRunning := true;
                 status := running;
                 currentPhaseIndex := 0 |}
       else
         tick (Some ap) prev =
         Ok {| totalSeconds := 0;
               isRunning := false;
               status := completed;
               currentPhaseIndex := currentPhaseIndex prev |}
   end).
Proof.
  split.
  - intros Hgt. unfold tick. rewrite decide_False by lia.
    split; [reflexivity | lia].
  - intros Hle Hindex. unfold tick. rewrite decide_True by assumption.
    destruct (decide (currentPhaseIndex prev + 1 < js_length (phases ap)))
      as [Hnext | Hlast].
    + destruct (js_index_in_range (phases ap) (currentPhaseIndex prev + 1))
        as [nextPhase Hlookup]; [lia |].
      unfold enterPhase. rewrite Hlookup. reflexivity.
    + rewrite js_index_out_of_range by lia.
      destruct (loopPhases ap); [| reflexivity].
      intros Hphases.
      destruct (js_index_in_range (phases ap) 0) as [firstPhase Hfirst].
      { assert (js_length (phases ap) <> 0) by (rewrite js_length_zero; done).
        unfold js_length in *. lia. }
      exists firstPhase. split; [assumption |].
      unfold enterPhase. rewrite Hfirst. reflexivity.
Qed.

(** Without an active preset the boundary tick stops the timer
    (line 336). *)
Lemma tick_without_preset (prev : TimerState) :
  totalSeconds prev <= 1 ->
  tick None prev =
  Ok {| totalSeconds := 0; isRunning := false; status := completed;
        currentPhaseIndex := currentPhaseIndex prev |}.
Proof. intros Hle. unfold tick. rewrite decide_True by assumption. done. Qed.

(** Outside the data model: a looping preset without phases makes the
    boundary tick read [durationMinutes] of [undefined]. *)
Example tick_no_phases_looping :
  tick (Some (Scenarios.noPhases true))
    {| totalSeconds := 1; isRunning := true; status := running;
       currentPhaseIndex := 0 |} = TypeError.
Proof. reflexivity. Qed.

End Tick.

Lemma tick_spec_witness :
  Engine.tick (Some (Scenarios.workBreak false))
    {| totalSeconds := 1; isRunning := true; status := running;
       currentPhaseIndex := 0 |} =
  Ok {| totalSeconds := 60; isRunning := true; status := running;
        currentPhaseIndex := 1 |}
  /\
  exists firstPhase,
    js_index (phases (Scenarios.workBreak true)) 0 = Some firstPhase /\
    Engine.tick (Some (Scenarios.workBreak true))
      {| totalSeconds := 1; isRunning := true; status := running;
         currentPhaseIndex := 1 |} =
    Ok {| totalSeconds := durationMinutes firstPhase * 60;
          isRunning := true; status := running; currentPhaseIndex := 0 |}.
Proof.
  split.
  - apply (proj2 (tick_spec (Scenarios.workBreak false)
                    {| totalSeconds := 1; isRunning := true;
                       status := running; currentPhaseIndex := 0 |}));
      discriminate.
  - apply (proj2 (tick_spec (Scenarios.workBreak true)
                    {| totalSeconds := 1; isRunning := true;
                       status := running; currentPhaseIndex := 1 |}));
      discriminate.
Defined.

(** The phase-advance and looping runs of the specification, from
    [start] on the two-phase preset. *)
Example phase_advance_run :
  Engine.start (Some (Scenarios.workBreak false)) Engine.initialState =
    Ok {| totalSeconds := 60; isRunning := true; status := running;
          currentPhaseIndex := 0 |} /\
  Scenarios.ticks 59 (Some (Scenarios.workBreak false))
    {| totalSeconds := 60; isRunning := true; status := running;
       currentPhaseIndex := 0 |} =
    Ok {| totalSeconds := 1; isRunning := true; status := running;
          currentPhaseIndex := 0 |} /\
  Scenarios.ticks 60 (Some (Scenarios.workBreak false))
    {| totalSeconds := 60; isRunning := true; status := running;
       currentPhaseIndex := 0 |} =
    Ok {| totalSeconds := 60; isRunning := true; status := running;
          currentPhaseIndex := 1 |} /\
  Scenarios.ticks 120 (Some (Scenarios.workBreak false))
    {| totalSeconds := 60; isRunning := true; status := running;
       currentPhaseIndex := 0 |} =
    Ok {| totalSeconds := 0; isRunning := false; status := completed;
          currentPhaseIndex := 1 |}.
Proof. repeat split; vm_compute; reflexivity. Qed.

Example looping_run :
  Scenarios.ticks 120 (Some (Scenarios.workBreak true))
    {| totalSeconds := 60; isRunning := true; status := running;
       currentPhaseIndex := 0 |} =
    Ok {| totalSeconds := 60; isRunning := true; status := running;
          currentPhaseIndex := 0 |}.
Proof. vm_compute; reflexivity. Qed.

Section Controls.

Import Engine.

(** C6, as the code has it: [pause] sets [isRunning = false] and
    [status = paused] from every state, running or not, and keeps
    [totalSeconds] and [currentPhaseIndex]; it leaves the state as it
    was exactly when the state already had [isRunning = false] and
    [status = paused]. *)
Theorem pause_spec (s : TimerState) :
  pause s =
  Ok {| totalSeconds := totalSeconds s; isRunning := false;
        status := paused; currentPhaseIndex := currentPhaseIndex s |}
  /\ (pause s = Ok s <-> isRunning s = false /\ status s = paused).
Proof.
  split; [reflexivity |].
  destruct s as [secs run st idx]. unfold pause. simpl. split.
  - intros Heq. injection Heq as Hrun Hst. split; congruence.
  - intros [-> ->]. reflexivity.
Qed.

(** C6 as stated fails: the initial state is not running and idle, and
    [pause] turns it into a paused state. *)
Lemma pause_changes_idle_state :
  isRunning initialState = false /\
  status initialState = idle /\
  pause initialState =
    Ok {| totalSeconds := 0; isRunning := false; status := paused;
          currentPhaseIndex := 0 |} /\
  pause initialState <> Ok initialState.
Proof. repeat split; discriminate. Qed.

(** [pause] also takes a completed timer out of [completed]. *)
Example pause_changes_completed_state :
  pause {| totalSeconds := 0; isRunning := false; status := completed;
           currentPhaseIndex := 1 |} =
  Ok {| totalSeconds := 0; isRunning := false; status := paused;
        currentPhaseIndex := 1 |}.
Proof. reflexivity. Qed.

(** C7: without an active preset, or with one whose phase list is
    empty, [start], [reset], [skipToNextPhase] and [skipToPreviousPhase]
    return the state they were given; so does [goToPhase index] when
    [index < 0] or [index >= phases.length]. *)
Theorem invalid_control_calls_are_noops :
  (forall (activePreset : option Preset) (s : TimerState),
     activePreset = None \/
     (exists ap, activePreset = Some ap /\ phases ap = []) ->
     start activePreset s = Ok s /\
     reset activePreset s = Ok s /\
     skipToNextPhase activePreset s = Ok s /\
     skipToPreviousPhase activePreset s = Ok s)
  /\
  (forall (ap : Preset) (index : Z) (s : TimerState),
     index < 0 \/ index >= js_length (phases ap) ->
     goToPhase (Some ap) index s = Ok s).
Proof.
  split.
  - intros activePreset s [-> | (ap & -> & Hempty)].
    + repeat split.
    + unfold start, reset, skipToNextPhase, skipToPreviousPhase.
      rewrite Hempty. repeat split.
  - intros ap index s Hout. unfold goToPhase.
    destruct (decide (index < 0)); [reflexivity |].
    rewrite decide_True by lia. reflexivity.
Qed.

(** [goToPhase] without an active preset does nothing either. *)
Lemma goToPhase_without_preset (index : Z) (s : TimerState) :
  goToPhase None index s = Ok s.
Proof. reflexivity. Qed.

(** [skipToPreviousPhase] at phase 0 of a preset that does not loop. *)
Example skip_back_at_first_phase (s : TimerState) :
  currentPhaseIndex s = 0 ->
  skipToPreviousPhase (Some (Scenarios.workBreak false)) s = Ok s.
Proof.
  intros Hidx. unfold skipToPreviousPhase. simpl.
  rewrite Hidx. reflexivity.
Qed.

End Controls.

Lemma invalid_control_calls_are_noops_witness :
  (Engine.start (Some (Scenarios.noPhases true)) Engine.initialState
     = Ok Engine.initialState /\
   Engine.reset (Some (Scenarios.noPhases true)) Engine.initialState
     = Ok Engine.initialState /\
   Engine.skipToNextPhase (Some (Scenarios.noPhases true)) Engine.initialState
     = Ok Engine.initialState /\
   Engine.skipToPreviousPhase (Some (Scenarios.noPhases true))
     Engine.initialState = Ok Engine.initialState)
  /\
  Engine.goToPhase (Some (Scenarios.workBreak false)) 2 Engine.initialState
    = Ok Engine.initialState.
Proof.
  split.
  - apply (proj1 invalid_control_calls_are_noops).
    right. exists (Scenarios.noPhases true). split; reflexivity.
  - apply (proj2 invalid_control_calls_are_noops).
    right. discriminate.
Defined.

(** ** Invariants over every reachable state *)

Section InvariantPreservation.

Import Engine Provider Invariant.

Local Ltac invariant_of_literal :=
  unfold timerInvariant; simpl; split; intros; try discriminate; auto.

Lemma initialState_invariant : timerInvariant initialState.
Proof. invariant_of_literal. Qed.

(** Entering a phase yields exactly the flags and the index asked for,
    and the index is one the phase list has. *)
Lemma enterPhase_flags (ps : list Phase) (index : Z) (run : bool)
    (st : TimerStatus) (s : TimerState) :
  enterPhase ps index run st = Ok s ->
  isRunning s = run /\ status s = st /\
  currentPhaseIndex s = index /\ 0 <= index < js_length ps.
Proof.
  unfold enterPhase, js_index, js_length.
  case_decide; [| discriminate].
  destruct (ps !! Z.to_nat index) eqn:Hlookup; [| discriminate].
  intros [= <-]. apply lookup_lt_Some in Hlookup.
  repeat split; simpl; lia.
Qed.

Lemma enterPhase_invariant (ps : list Phase) (index : Z) (run : bool)
    (st : TimerStatus) (s : TimerState) :
  (run = true -> st = running) -> st <> completed ->
  enterPhase ps index run st = Ok s -> timerInvariant s.
Proof.
  intros Hrun Hst Henter.
  apply enterPhase_flags in Henter as (Hr & Hs & _).
  unfold timerInvariant. rewrite Hr, Hs. split; [assumption | contradiction].
Qed.

Local Ltac by_enterPhase :=
  match goal with
  | H : enterPhase _ _ _ _ = Ok _ |- _ =>
      apply enterPhase_invariant in H; [assumption | done | done]
  end.

Lemma tick_invariant (ap : option Preset) (s s' : TimerState) :
  timerInvariant s -> tick ap s = Ok s' -> timerInvariant s'.
Proof.
  intros [Hrun Hdone]. unfold tick.
  repeat case_match; intros Hstep; try by_enterPhase;
    injection Hstep as <-; invariant_of_literal.
  match goal with
  | Hcompleted : status s = completed |- _ =>
      apply Hdone in Hcompleted as [Hzero _]; lia
  end.
Qed.

Lemma start_invariant (ap : option Preset) (s s' : TimerState) :
  timerInvariant s -> start ap s = Ok s' -> timerInvariant s'.
Proof.
  intros Hinv. unfold start.
  repeat case_match; intros Hstep; try by_enterPhase;
    injection Hstep as <-; try assumption; invariant_of_literal.
Qed.

Lemma pause_invariant (s s' : TimerState) :
  timerInvariant s -> pause s = Ok s' -> timerInvariant s'.
Proof. intros _. unfold pause. intros [= <-]. invariant_of_literal. Qed.

Lemma reset_invariant (ap : option Preset) (s s' : TimerState) :
  timerInvariant s -> reset ap s = Ok s' -> timerInvariant s'.
Proof.
  intros Hinv. unfold reset.
  repeat case_match; intros Hstep; try by_enterPhase;
    injection Hstep as <-; assumption.
Qed.

Lemma skipToNextPhase_invariant (ap : option Preset) (s s' : TimerState) :
  timerInvariant s -> skipToNextPhase ap s = Ok s' -> timerInvariant s'.
Proof.
  intros Hinv. unfold skipToNextPhase.
  repeat case_match; intros Hstep; try by_enterPhase;
    injection Hstep as <-; assumption.
Qed.

Lemma skipToPreviousPhase_invariant (ap : option Preset)
    (s s' : TimerState) :
  timerInvariant s -> skipToPreviousPhase ap s = Ok s' -> timerInvariant s'.
Proof.
  intros Hinv. unfold skipToPreviousPhase.
  repeat case_match; intros Hstep; try by_enterPhase;
    injection Hstep as <-; assumption.
Qed.

Lemma goToPhase_invariant (ap : option Preset) (index : Z)
    (s s' : TimerState) :
  timerInvariant s -> goToPhase ap index s = Ok s' -> timerInvariant s'.
Proof.
  intros Hinv. unfold goToPhase.
  repeat case_match; intros Hstep; try by_enterPhase;
    injection Hstep as <-; assumption.
Qed.

Lemma initialize_invariant (ap : option Preset) (s : TimerState) :
  initialize ap = Ok s -> timerInvariant s.
Proof.
  unfold initialize.
  repeat case_match; intros Hstep; try by_enterPhase;
    injection Hstep as <-; apply initialState_invariant.
Qed.

(** Reconciliation keeps the invariant of a snapshot. *)
Lemma calculateRestoredState_invariant (now : Z) (p : PersistedTimerState) :
  timerInvariant (timerStateOf p) ->
  timerInvariant (timerStateOf (Persistence.calculateRestoredState now p)).
Proof.
  intros Hinv.
  destruct (p_isRunning p) eqn:Hrun;
    [destruct (decide (p_status p = running)) as [Hst | Hst] |].
  - rewrite calculateRestoredState_counting by assumption.
    case_decide; invariant_of_literal.
  - rewrite calculateRestoredState_not_running_eq by (right; assumption).
    assumption.
  - rewrite calculateRestoredState_not_running_eq by (left; assumption).
    assumption.
Qed.

(** The same for the phase index. *)
Local Ltac index_by_cases :=
  repeat case_match; intros Hstep;
  first
    [ apply enterPhase_flags in Hstep as (_ & _ & Hidx & Hrange);
      unfold indexInvariant; lia
    | injection Hstep as <-; unfold indexInvariant in *; simpl; lia ].

Lemma tick_index (ap : option Preset) (s s' : TimerState) :
  indexInvariant s -> tick ap s = Ok s' -> indexInvariant s'.
Proof. intros Hinv. unfold tick. index_by_cases. Qed.

Lemma start_index (ap : option Preset) (s s' : TimerState) :
  indexInvariant s -> start ap s = Ok s' -> indexInvariant s'.
Proof. intros Hinv. unfold start. index_by_cases. Qed.

Lemma pause_index (s s' : TimerState) :
  indexInvariant s -> pause s = Ok s' -> indexInvariant s'.
Proof. intros Hinv. unfold pause. index_by_cases. Qed.

Lemma reset_index (ap : option Preset) (s s' : TimerState) :
  indexInvariant s -> reset ap s = Ok s' -> indexInvariant s'.
Proof. intros Hinv. unfold reset. index_by_cases. Qed.

Lemma skipToNextPhase_index (ap : option Preset) (s s' : TimerState) :
  indexInvariant s -> skipToNextPhase ap s = Ok s' -> indexInvariant s'.
Proof. intros Hinv. unfold skipToNextPhase. index_by_cases. Qed.

Lemma skipToPreviousPhase_index (ap : option Preset) (s s' : TimerState) :
  indexInvariant s -> skipToPreviousPhase ap s = Ok s' -> indexInvariant s'.
Proof. intros Hinv. unfold skipToPreviousPhase. index_by_cases. Qed.

Lemma goToPhase_index (ap : option Preset) (index : Z) (s s' : TimerState) :
  indexInvariant s -> goToPhase ap index s = Ok s' -> indexInvariant s'.
Proof. intros Hinv. unfold goToPhase. index_by_cases. Qed.

Lemma initialize_index (ap : option Preset) (s : TimerState) :
  initialize ap = Ok s -> indexInvariant s.
Proof. unfold initialize. index_by_cases. Qed.

Lemma calculateRestoredState_index (now : Z) (p : PersistedTimerState) :
  indexInvariant (timerStateOf p) ->
  indexInvariant (timerStateOf (Persistence.calculateRestoredState now p)).
Proof.
  unfold indexInvariant, Persistence.calculateRestoredState. simpl.
  intros Hinv. repeat case_match; simpl; assumption.
Qed.

(** Both save paths store the timer state as it is. *)
Lemma timerStateOf_currentSnapshot (now : Z) (w : Provider) :
  timerStateOf (currentSnapshot now w) = timerState w.
Proof.
  unfold timerStateOf, currentSnapshot, Persistence.createPersistedState.
  simpl. destruct (timerState w). reflexivity.
Qed.

End InvariantPreservation.

(** A property of timer states that the initial state has, and that the
    controls, the tick, initialisation and reconciliation keep, holds in
    every reachable state. *)
Section ReachableStates.

Import Engine Provider Invariant.

Variable P : TimerState -> Prop.

Hypothesis P_initialState : P initialState.
Hypothesis P_start : forall ap s s', P s -> start ap s = Ok s' -> P s'.
Hypothesis P_pause : forall s s', P s -> pause s = Ok s' -> P s'.
Hypothesis P_reset : forall ap s s', P s -> reset ap s = Ok s' -> P s'.
Hypothesis P_skipToNextPhase :
  forall ap s s', P s -> skipToNextPhase ap s = Ok s' -> P s'.
Hypothesis P_skipToPreviousPhase :
  forall ap s s', P s -> skipToPreviousPhase ap s = Ok s' -> P s'.
Hypothesis P_goToPhase :
  forall ap index s s', P s -> goToPhase ap index s = Ok s' -> P s'.
Hypothesis P_tick : forall ap s s', P s -> tick ap s = Ok s' -> P s'.
Hypothesis P_initialize : forall ap s, initialize ap = Ok s -> P s.
Hypothesis P_calculateRestoredState :
  forall now p,
    P (timerStateOf p) ->
    P (timerStateOf (Persistence.calculateRestoredState now p)).

Local Ltac split_everywhere := split; [| split; [| split]].

Lemma setTimerState_everywhere (s : TimerState) (w : Provider) :
  holdsEverywhere P w -> P s -> holdsEverywhere P (setTimerState s w).
Proof.
  intros (_ & Hlocal & Hremote & Hpending) Hs.
  split_everywhere; assumption.
Qed.

Lemma saveTimerStateLocal_everywhere (p : PersistedTimerState)
    (w : Provider) :
  holdsEverywhere P w -> P (timerStateOf p) ->
  holdsEverywhere P (saveTimerStateLocal p w).
Proof.
  intros (Htimer & _ & Hremote & Hpending) Hp.
  split_everywhere; try assumption.
  simpl. intros ls [= <-]. assumption.
Qed.

Lemma saveTimerStateFirebase_everywhere (delivered : bool) (uid : string)
    (p : PersistedTimerState) (w : Provider) :
  holdsEverywhere P w -> P (timerStateOf p) ->
  holdsEverywhere P (saveTimerStateFirebase delivered uid p w).
Proof.
  intros (Htimer & Hlocal & Hremote & Hpending) Hp.
  split_everywhere; try assumption.
  simpl. intros uid' fs. destruct delivered; [| apply Hremote].
  destruct (decide (uid = uid')) as [<- | Hne].
  - rewrite lookup_insert_eq. intros [= <-]. assumption.
  - rewrite lookup_insert_ne by assumption. apply Hremote.
Qed.

Lemma initEffect_everywhere (w w' : Provider) :
  holdsEverywhere P w -> initEffect w = Ok w' -> holdsEverywhere P w'.
Proof.
  intros Hinv. unfold initEffect.
  destruct (hasRestoredState w
            && bool_decide (restoredPresetIdRef w = activePresetId w)).
  - intros [= <-]. exact Hinv.
  - destruct (initialize (activePreset w)) as [s |] eqn:Hinit;
      [| discriminate].
    intros [= <-]. apply setTimerState_everywhere; [assumption |].
    eapply P_initialize; eassumption.
Qed.

Lemma currentSnapshot_everywhere (now : Z) (w : Provider) :
  holdsEverywhere P w -> P (timerStateOf (currentSnapshot now w)).
Proof.
  intros Hinv. rewrite timerStateOf_currentSnapshot. apply Hinv.
Qed.

Lemma saveEffect_everywhere (now : Z) (delivered : bool) (w : Provider) :
  holdsEverywhere P w -> holdsEverywhere P (saveEffect now delivered w).
Proof.
  intros Hinv. unfold saveEffect.
  pose proof (currentSnapshot_everywhere now w Hinv) as Hsnap.
  repeat case_match; try assumption;
    repeat first [ apply saveTimerStateFirebase_everywhere
                 | apply saveTimerStateLocal_everywhere ];
    assumption.
Qed.

Lemma handleBeforeUnload_everywhere (now : Z) (w : Provider) :
  holdsEverywhere P w -> holdsEverywhere P (handleBeforeUnload now w).
Proof.
  intros Hinv. apply saveTimerStateLocal_everywhere; [assumption |].
  apply currentSnapshot_everywhere. assumption.
Qed.

Lemma awaitLoad_everywhere (fetched : option PersistedTimerState)
    (w : Provider) :
  holdsEverywhere P w ->
  (forall fs, fetched = Some fs -> P (timerStateOf fs)) ->
  holdsEverywhere P (awaitLoad fetched w).
Proof.
  intros (Htimer & Hlocal & Hremote & Hpending) Hfetched.
  split_everywhere; try assumption.
  simpl. intros fs [Heq | Hin]%elem_of_cons.
  - apply Hfetched. symmetry. exact Heq.
  - apply Hpending. assumption.
Qed.

Lemma adoptIfNewer_everywhere (now : Z)
    (fetched : option PersistedTimerState) (w : Provider) :
  holdsEverywhere P w ->
  (forall fs, fetched = Some fs -> P (timerStateOf fs)) ->
  holdsEverywhere P (adoptIfNewer now fetched w).
Proof.
  intros Hinv Hfetched. unfold adoptIfNewer.
  destruct fetched as [fs |]; [| assumption].
  assert (Hrestored :
    P (timerStateOf (Persistence.calculateRestoredState now fs)))
    by (apply P_calculateRestoredState, Hfetched; reflexivity).
  case_match; [| assumption].
  apply saveTimerStateLocal_everywhere; [| assumption].
  destruct Hinv as (_ & Hlocal & Hremote & Hpending).
  split_everywhere; assumption.
Qed.

Lemma mount_everywhere (now : Z) (u : option string)
    (local : option PersistedTimerState)
    (remote : gmap string PersistedTimerState) :
  (forall ls, local = Some ls -> P (timerStateOf ls)) ->
  (forall uid fs, remote !! uid = Some fs -> P (timerStateOf fs)) ->
  holdsEverywhere P (mount now u local remote).
Proof.
  intros Hlocal Hremote. unfold mount, getInitialTimerState.
  split_everywhere; try assumption.
  - destruct local as [ls |]; simpl.
    + apply P_calculateRestoredState, Hlocal. reflexivity.
    + apply P_initialState.
  - simpl. intros fs Hin. inversion Hin.
Qed.

Lemma step_everywhere (w w' : Provider) :
  holdsEverywhere P w -> step w w' -> holdsEverywhere P w'.
Proof.
  intros Hinv Hstep.
  pose proof (proj1 Hinv) as Htimer.
  destruct Hstep.
  - apply setTimerState_everywhere; [assumption |].
    eapply P_start; [exact Htimer | eassumption].
  - apply setTimerState_everywhere; [assumption |].
    eapply P_pause; [exact Htimer | eassumption].
  - apply setTimerState_everywhere; [assumption |].
    eapply P_reset; [exact Htimer | eassumption].
  - apply setTimerState_everywhere; [assumption |].
    eapply P_skipToNextPhase; [exact Htimer | eassumption].
  - apply setTimerState_everywhere; [assumption |].
    eapply P_skipToPreviousPhase; [exact Htimer | eassumption].
  - apply setTimerState_everywhere; [assumption |].
    eapply P_goToPhase; [exact Htimer | eassumption].
  - apply setTimerState_everywhere; [assumption |].
    eapply P_tick; [exact Htimer | eassumption].
  - eapply initEffect_everywhere; eassumption.
  - apply saveEffect_everywhere; assumption.
  - apply handleBeforeUnload_everywhere; assumption.
  - apply awaitLoad_everywhere; [assumption |].
    intros fs ->.
    match goal with
    | H : Some _ = None \/ _ |- _ =>
        destruct H as [? | Hread]; [discriminate |]
    end.
    destruct Hinv as (_ & _ & Hremote & _).
    eapply Hremote. symmetry. exact Hread.
  - apply adoptIfNewer_everywhere; [assumption |].
    intros fs ->. destruct Hinv as (_ & _ & _ & Hpending).
    apply Hpending. assumption.
  - destruct Hinv as (_ & Hlocal & Hremote & Hpending).
    split_everywhere; assumption.
  - destruct Hinv as (_ & Hlocal & Hremote & _).
    apply mount_everywhere; assumption.
Qed.

Lemma reachable_everywhere (w : Provider) :
  reachable w -> holdsEverywhere P w.
Proof.
  induction 1 as [now u | w w' _ IH Hstep].
  - apply mount_everywhere; [discriminate |].
    intros uid fs. rewrite lookup_empty. discriminate.
  - eapply step_everywhere; eassumption.
Qed.

End ReachableStates.

Section ReachableInvariants.

Import Engine Provider Invariant.

(** C4: in every state reached from the first mount by [start],
    [pause], [reset], [skipToNextPhase], [skipToPreviousPhase],
    [goToPhase], ticks, adoption of a restored snapshot (at a reload
    from the local store, or from the remote store), and by the effects
    and environment changes in between, [isRunning = true] implies
    [status = running], and [status = completed] implies
    [totalSeconds = 0] and [isRunning = false]. *)
Theorem reachable_invariant (w : Provider) :
  reachable w ->
  (isRunning (timerState w) = true -> status (timerState w) = running) /\
  (status (timerState w) = completed ->
   totalSeconds (timerState w) = 0 /\ isRunning (timerState w) = false).
Proof.
  intros Hreach.
  apply (reachable_everywhere timerInvariant) in Hreach.
  - apply Hreach.
  - apply initialState_invariant.
  - apply start_invariant.
  - apply pause_invariant.
  - apply reset_invariant.
  - apply skipToNextPhase_invariant.
  - apply skipToPreviousPhase_invariant.
  - apply goToPhase_invariant.
  - apply tick_invariant.
  - apply initialize_invariant.
  - apply calculateRestoredState_invariant.
Qed.

(** The phase index of a reachable state is never negative: the
    assumption on the index under which the tick is specified holds
    wherever the tick can fire. *)
Lemma reachable_index_nonnegative (w : Provider) :
  reachable w -> 0 <= currentPhaseIndex (timerState w).
Proof.
  intros Hreach.
  apply (reachable_everywhere indexInvariant) in Hreach.
  - apply Hreach.
  - unfold indexInvariant. simpl. lia.
  - apply start_index.
  - apply pause_index.
  - apply reset_index.
  - apply skipToNextPhase_index.
  - apply skipToPreviousPhase_index.
  - apply goToPhase_index.
  - apply tick_index.
  - apply initialize_index.
  - apply calculateRestoredState_index.
Qed.

End ReachableInvariants.

Lemma reachable_invariant_witness :
  Provider.reachable Scenarios.started /\
  (isRunning (Provider.timerState Scenarios.started) = true ->
   status (Provider.timerState Scenarios.started) = running) /\
  (status (Provider.timerState Scenarios.started) = completed ->
   totalSeconds (Provider.timerState Scenarios.started) = 0 /\
   isRunning (Provider.timerState Scenarios.started) = false).
Proof.
  assert (Hreach : Provider.reachable Scenarios.started).
  { apply (Provider.reachable_step Scenarios.signedIn).
    - apply (Provider.reachable_step (Provider.boot 0 None)).
      + apply Provider.reachable_boot.
      + apply Provider.step_environment.
    - apply Provider.step_start. reflexivity. }
  split; [exact Hreach |].
  exact (reachable_invariant Scenarios.started Hreach).
Defined.

(** ** Remote precedence and the local write-through *)

Section RemoteLoad.

Import Provider.

Variable now : Z.

(** The test of line 198 as a proposition. *)
Lemma newer_test (fs : PersistedTimerState)
    (localState : option PersistedTimerState) :
  match localState with
  | None => true
  | Some ls => bool_decide (p_savedAt fs > p_savedAt ls)
  end = true
  <-> localState = None \/
      exists ls, localState = Some ls /\ p_savedAt fs > p_savedAt ls.
Proof.
  destruct localState as [ls |].
  - rewrite bool_decide_eq_true. split.
    + intros Hgt. right. exists ls. split; [reflexivity | assumption].
    + intros [Hnone | (ls' & [= <-] & Hgt)]; [discriminate | assumption].
  - split; [intros _; left; reflexivity | reflexivity].
Qed.

(** Lines 198-212 when the remote snapshot wins. *)
Lemma adoptIfNewer_adopts (fs : PersistedTimerState) (w : Provider) :
  (localStorage w = None \/
   exists ls, localStorage w = Some ls /\ p_savedAt fs > p_savedAt ls) ->
  adoptIfNewer now (Some fs) w =
  saveTimerStateLocal (Persistence.calculateRestoredState now fs)
    (setRestoredPresetIdRef
       (p_activePresetId (Persistence.calculateRestoredState now fs))
       (setHasRestoredState true
          (setTimerState
             (timerStateOf (Persistence.calculateRestoredState now fs)) w))).
Proof.
  intros Hnewer. unfold adoptIfNewer.
  rewrite (proj2 (newer_test fs (localStorage w)) Hnewer). reflexivity.
Qed.

(** Lines 198-212 when it does not. *)
Lemma adoptIfNewer_keeps (firebaseState : option PersistedTimerState)
    (w : Provider) :
  ~ (exists fs, firebaseState = Some fs /\
       (localStorage w = None \/
        exists ls, localStorage w = Some ls /\ p_savedAt fs > p_savedAt ls)) ->
  adoptIfNewer now firebaseState w = w.
Proof.
  intros Hnot. unfold adoptIfNewer.
  destruct firebaseState as [fs |]; [| reflexivity].
  destruct (match localStorage w with
            | None => true
            | Some ls => bool_decide (p_savedAt fs > p_savedAt ls)
            end) eqn:Htest; [| reflexivity].
  exfalso. apply Hnot. exists fs. split; [reflexivity |].
  apply newer_test. assumption.
Qed.

(** With a user and sync enabled the whole of [loadFirebaseState] is
    its second half. *)
Lemma loadFirebaseState_enabled
    (firebaseState : option PersistedTimerState) (w : Provider)
    (uid : string) :
  user w = Some uid -> syncTimerStateRef w = true ->
  loadFirebaseState now firebaseState w = adoptIfNewer now firebaseState w.
Proof. intros Huser Hsync. unfold loadFirebaseState. by rewrite Huser, Hsync. Qed.


(** Without a user, or with sync off, nothing is read or adopted. *)
Lemma loadFirebaseState_disabled
    (firebaseState : option PersistedTimerState) (w : Provider) :
  user w = None \/ syncTimerStateRef w = false ->
  loadFirebaseState now firebaseState w = w.
Proof.
  intros [Huser | Hsync]; unfold loadFirebaseState.
  - by rewrite Huser.
  - rewrite Hsync. by destruct (user w).
Qed.

(** C9, as the code has it: the save effect, when it writes, and the
    unload handler store a snapshot whose [savedAt] is the time of the
    write; the write-through of an adopted remote snapshot stores
    [savedAt = now] when that snapshot was running with
    [status = running], and stores the remote [savedAt] as it was when
    the snapshot was not. *)
Theorem local_write_savedAt (w : Provider) :
  p_savedAt (currentSnapshot now w) = now
  /\
  (forall delivered,
     localStorage (saveEffect now delivered w) =
     if bool_decide (status (timerState w) = idle)
        && bool_decide (totalSeconds (timerState w) = 0)
        && noPresetId (activePresetId w)
     then localStorage w
     else Some (currentSnapshot now w))
  /\
  localStorage (handleBeforeUnload now w) = Some (currentSnapshot now w)
  /\
  (forall fs,
     localStorage w = None \/
     (exists ls, localStorage w = Some ls /\ p_savedAt fs > p_savedAt ls) ->
     localStorage (adoptIfNewer now (Some fs) w) =
       Some (Persistence.calculateRestoredState now fs) /\
     (p_isRunning fs = true /\ p_status fs = running ->
      p_savedAt (Persistence.calculateRestoredState now fs) = now) /\
     (p_isRunning fs = false \/ p_status fs <> running ->
      p_savedAt (Persistence.calculateRestoredState now fs) = p_savedAt fs)).
Proof.
  split; [reflexivity |]. split; [| split; [reflexivity |]].
  - intros delivered. unfold saveEffect.
    destruct (bool_decide (status (timerState w) = idle)
              && bool_decide (totalSeconds (timerState w) = 0)
              && noPresetId (activePresetId w)); [reflexivity |].
    simpl. destruct (syncTimerStateRef w); [| reflexivity].
    destruct (user w); reflexivity.
  - intros fs Hnewer. rewrite adoptIfNewer_adopts by assumption.
    split; [reflexivity |]. split.
    + intros [Hrun Hst]. apply calculateRestoredState_savedAt; assumption.
    + intros Hstopped.
      rewrite calculateRestoredState_not_running_eq by assumption.
      reflexivity.
Qed.

End RemoteLoad.

(** C9 as stated fails: at time 5000 the remote snapshot saved at time
    1000, not running, is adopted and written to the local store with
    [savedAt = 1000]. *)
Lemma write_through_keeps_remote_savedAt :
  p_isRunning Scenarios.pausedInBreak = false /\
  Provider.localStorage Scenarios.adopted = Some Scenarios.pausedInBreak /\
  p_savedAt <$> Provider.localStorage Scenarios.adopted = Some 1000 /\
  p_savedAt <$> Provider.localStorage Scenarios.adopted <> Some 5000.
Proof. repeat split. discriminate. Qed.


Lemma local_write_savedAt_witness :
  p_savedAt <$>
    Provider.localStorage
      (Provider.adoptIfNewer 5000 (Some (Scenarios.runningAt 1000))
         (Scenarios.session (Scenarios.runningAt 1000))) = Some 5000.
Proof.
  destruct (local_write_savedAt 5000
              (Scenarios.session (Scenarios.runningAt 1000)))
    as (_ & _ & _ & Hthrough).
  destruct (Hthrough (Scenarios.runningAt 1000)) as (Hstored & Hstamp & _).
  { right. exists Scenarios.idleAtWork. split; reflexivity. }
  rewrite Hstored.
  change (Some (p_savedAt (Persistence.calculateRestoredState 5000
                             (Scenarios.runningAt 1000))) = Some 5000).
  exact (f_equal Some (Hstamp (conj eq_refl eq_refl))).
Defined.

(** ** The preset-change effect and its restore guard *)

Section RestoreGuard.

Import Engine Provider.

(** One run with the guard armed for the active preset id: the state is
    left alone and the guard is cleared (lines 221-226). *)
Lemma initEffect_skips (w : Provider) :
  hasRestoredState w = true ->
  restoredPresetIdRef w = activePresetId w ->
  initEffect w = Ok (setHasRestoredState false w).
Proof.
  intros Hflag Hid. unfold initEffect.
  rewrite Hflag, bool_decide_eq_true_2 by assumption. reflexivity.
Qed.

(** One run with the guard cleared, or armed for another preset id:
    the timer is initialised from the active preset (lines 228-243). *)
Lemma initEffect_initializes (w : Provider) :
  hasRestoredState w = false \/ restoredPresetIdRef w <> activePresetId w ->
  initEffect w =
  match initialize (activePreset w) with
  | Ok s => Ok (setTimerState s w)
  | TypeError => TypeError
  end.
Proof.
  intros Hguard. unfold initEffect.
  destruct Hguard as [-> | Hne]; [reflexivity |].
  rewrite bool_decide_eq_false_2 by assumption.
  rewrite andb_false_r. reflexivity.
Qed.

(** What initialisation installs: the first phase in full, idle; the
    zero state without a preset or without phases. *)
Lemma initialize_first_phase (ap : Preset) (firstPhase : Phase)
    (rest : list Phase) :
  phases ap = firstPhase :: rest ->
  initialize (Some ap) =
  Ok {| totalSeconds := durationMinutes firstPhase * 60; isRunning := false;
        status := idle; currentPhaseIndex := 0 |}.
Proof.
  intros Hphases. unfold initialize, enterPhase.
  rewrite Hphases. rewrite decide_True by (unfold js_length; simpl; lia).
  reflexivity.
Qed.

Lemma initialize_no_phases (activePreset : option Preset) :
  activePreset = None \/
  (exists ap, activePreset = Some ap /\ phases ap = []) ->
  initialize activePreset = Ok initialState.
Proof.
  intros [-> | (ap & -> & Hempty)]; [reflexivity |].
  unfold initialize. rewrite Hempty. reflexivity.
Qed.

Lemma initialize_total (activePreset : option Preset) :
  exists s, initialize activePreset = Ok s.
Proof.
  destruct activePreset as [ap |]; [| eexists; reflexivity].
  destruct (phases ap) as [| firstPhase rest] eqn:Hphases.
  - eexists. apply initialize_no_phases. right. eauto.
  - eexists. eapply initialize_first_phase. eassumption.
Qed.

(** The renders that follow a restore adopted for the active preset id.
    The effect runs because [hasRestoredState] became true, skips and
    clears the guard; clearing it changes the dependency
    [hasRestoredState] again, so the effect runs once more and
    initialises the timer; then nothing changes any more. Whatever was
    restored is replaced by the first phase, although the active preset
    never changed. *)
Lemma flushInitEffect_after_restore (w : Provider)
    (lastDeps : option (option Preset * option string * bool))
    (s : TimerState) (fuel : nat) :
  hasRestoredState w = true ->
  restoredPresetIdRef w = activePresetId w ->
  lastDeps <> Some (initEffectDeps w) ->
  initialize (activePreset w) = Ok s ->
  flushInitEffect (3 + fuel) lastDeps w =
  Ok (setTimerState s (setHasRestoredState false w)).
Proof.
  intros Hflag Hid Hchanged Hinit.
  change (3 + fuel)%nat with (S (S (S fuel))).
  cbn [flushInitEffect].
  rewrite decide_False by assumption.
  rewrite initEffect_skips by assumption.
  rewrite decide_False.
  2: { unfold initEffectDeps. simpl. rewrite Hflag. intros [=]. }
  rewrite initEffect_initializes by (left; reflexivity).
  change (activePreset (setHasRestoredState false w)) with (activePreset w).
  rewrite Hinit.
  rewrite decide_True by reflexivity. reflexivity.
Qed.

(** Three renders always suffice: more fuel gives the same result. *)
Lemma flushInitEffect_settles (w : Provider)
    (lastDeps : option (option Preset * option string * bool))
    (fuel : nat) :
  flushInitEffect (3 + fuel) lastDeps w = flushInitEffect 3 lastDeps w.
Proof.
  change (3 + fuel)%nat with (S (S (S fuel))).
  cbn [flushInitEffect].
  destruct (decide (lastDeps = Some (initEffectDeps w))); [reflexivity |].
  destruct (initialize_total (activePreset w)) as [s Hinit].
  destruct (hasRestoredState w) eqn:Hflag;
    [destruct (decide (restoredPresetIdRef w = activePresetId w)) |].
  - assert (Hcleared : Some (initEffectDeps w) <>
                       Some (initEffectDeps (setHasRestoredState false w))).
    { unfold initEffectDeps. simpl. rewrite Hflag. intros [=]. }
    rewrite initEffect_skips by assumption.
    rewrite !(decide_False _ _ Hcleared).
    rewrite initEffect_initializes by (left; reflexivity).
    change (activePreset (setHasRestoredState false w))
      with (activePreset w).
    rewrite Hinit. rewrite !decide_True by reflexivity. reflexivity.
  - rewrite initEffect_initializes by (right; assumption).
    rewrite Hinit. rewrite !decide_True by reflexivity. reflexivity.
  - rewrite initEffect_initializes by (left; assumption).
    rewrite Hinit. rewrite !decide_True by reflexivity. reflexivity.
Qed.

(** C8 on the code: a session with preset [p1] active adopts the remote
    snapshot saved for [p1] (paused in phase 1 with 300 seconds left).
    The guard is armed for the active preset id and one run of the
    effect skips and clears it; the render this causes runs the effect
    again, and the timer ends up re-initialised to phase 0, idle, with
    60 seconds, while the active preset id is the same throughout. *)
Theorem restore_guard_reinitializes :
  timerState Scenarios.adopted =
    {| totalSeconds := 300; isRunning := false; status := paused;
       currentPhaseIndex := 1 |} /\
  hasRestoredState Scenarios.adopted = true /\
  restoredPresetIdRef Scenarios.adopted = Some "p1" /\
  activePresetId Scenarios.adopted = Some "p1" /\
  activePresetId (Scenarios.session Scenarios.pausedInBreak) = Some "p1" /\
  initEffect Scenarios.adopted =
    Ok (setHasRestoredState false Scenarios.adopted) /\
  forall fuel,
    flushInitEffect (3 + fuel)
      (Some (initEffectDeps (Scenarios.session Scenarios.pausedInBreak)))
      Scenarios.adopted =
    Ok (setTimerState
          {| totalSeconds := 60; isRunning := false; status := idle;
             currentPhaseIndex := 0 |}
          (setHasRestoredState false Scenarios.adopted)).
Proof.
  repeat (split; [reflexivity |]).
  intros fuel. apply flushInitEffect_after_restore; try reflexivity.
  intros [=].
Qed.

(** The same at a reload: the snapshot restored from the local store
    is for [p1], the provider mounts with no active preset id yet, and
    the first run of the effect already replaces the restored state by
    the zero state. *)
Example mount_first_effect_run :
  timerState (mount 2000 (Some "u") (Some Scenarios.pausedInBreak) ∅) =
    {| totalSeconds := 300; isRunning := false; status := paused;
       currentPhaseIndex := 1 |} /\
  flushInitEffect 3 None
    (mount 2000 (Some "u") (Some Scenarios.pausedInBreak) ∅) =
  Ok (setTimerState initialState
        (mount 2000 (Some "u") (Some Scenarios.pausedInBreak) ∅)).
Proof. split; reflexivity. Qed.

End RestoreGuard.

(** The first mount starts from the initial state. *)
Example boot_timerState (now : Z) (u : option string) :
  Provider.timerState (Provider.boot now u) = Engine.initialState.
Proof. reflexivity. Qed.

(** * Further properties of the engine *)

Section ControlsInRange.

Import Engine Schedule.

Variable ap : Preset.

(** Entering a phase the list has. *)
Lemma enterPhase_in_range (index : Z) (run : bool) (st : TimerStatus) :
  0 <= index < js_length (phases ap) ->
  exists phase,
    js_index (phases ap) index = Some phase /\
    enterPhase (phases ap) index run st =
    Ok {| totalSeconds := durationMinutes phase * 60; isRunning := run;
          status := st; currentPhaseIndex := index |}.
Proof.
  intros Hrange.
  destruct (js_index_in_range (phases ap) index Hrange) as [phase Hlookup].
  exists phase. split; [assumption |].
  unfold enterPhase. rewrite Hlookup. reflexivity.
Qed.

Lemma enterPhase_stays_in_range (index : Z) (run : bool) (st : TimerStatus) :
  0 <= index < js_length (phases ap) ->
  exists s', enterPhase (phases ap) index run st = Ok s' /\ phaseInRange ap s'.
Proof.
  intros Hrange.
  destruct (enterPhase_in_range index run st Hrange) as (phase & _ & ->).
  eexists. split; [reflexivity | exact Hrange].
Qed.

Local Ltac stays_in_range Hrange :=
  first
    [ apply enterPhase_stays_in_range; unfold js_length in *; lia
    | eexists; split; [reflexivity | exact Hrange] ].

(** X1: under a preset with phases, from a state whose phase index
    points into the phase list, no control and no tick raises an error,
    and each leaves the phase index inside the phase list; [goToPhase]
    does so for every index it is given. *)
Theorem controls_stay_in_range (s : TimerState) :
  phaseInRange ap s ->
  (exists s', start (Some ap) s = Ok s' /\ phaseInRange ap s') /\
  (exists s', pause s = Ok s' /\ phaseInRange ap s') /\
  (exists s', reset (Some ap) s = Ok s' /\ phaseInRange ap s') /\
  (exists s', skipToNextPhase (Some ap) s = Ok s' /\ phaseInRange ap s') /\
  (exists s', skipToPreviousPhase (Some ap) s = Ok s' /\ phaseInRange ap s') /\
  (forall index,
     exists s', goToPhase (Some ap) index s = Ok s' /\ phaseInRange ap s') /\
  (exists s', tick (Some ap) s = Ok s' /\ phaseInRange ap s').
Proof.
  intros Hrange. pose proof Hrange as [Hlo Hhi].
  repeat split.
  - unfold start. repeat case_match; stays_in_range Hrange.
  - unfold pause. stays_in_range Hrange.
  - unfold reset. repeat case_match; stays_in_range Hrange.
  - unfold skipToNextPhase. repeat case_match; stays_in_range Hrange.
  - unfold skipToPreviousPhase. repeat case_match; stays_in_range Hrange.
  - intros index. unfold goToPhase. repeat case_match; stays_in_range Hrange.
  - unfold tick. repeat case_match; stays_in_range Hrange.
Qed.

End ControlsInRange.

Section ControlsCompose.

Import Engine Schedule.

Variable ap : Preset.

(** X2: under a preset with phases, pausing a running countdown that
    has time left and starting it again gives back the state it was in:
    same remaining seconds, same phase, running. *)
Theorem start_after_pause_resumes (s : TimerState) :
  phases ap <> [] ->
  isRunning s = true ->
  status s = running ->
  totalSeconds s <> 0 ->
  exists s1, pause s = Ok s1 /\ start (Some ap) s1 = Ok s.
Proof.
  intros Hphases Hrun Hst Hleft.
  destruct s as [secs run st idx]. simpl in *. subst run st.
  eexists. split; [reflexivity |].
  unfold start. simpl.
  rewrite decide_False by (rewrite js_length_zero; assumption).
  rewrite decide_False by assumption. reflexivity.
Qed.

(** With no time left the same start refills the current phase. *)
Lemma start_refills_at_zero (s : TimerState) (phase : Phase) :
  status s = paused ->
  totalSeconds s = 0 ->
  js_index (phases ap) (currentPhaseIndex s) = Some phase ->
  start (Some ap) s =
  Ok {| totalSeconds := durationMinutes phase * 60; isRunning := true;
        status := running; currentPhaseIndex := currentPhaseIndex s |}.
Proof.
  intros Hst Hzero Hphase. unfold start.
  assert (Hlen : js_length (phases ap) <> 0).
  { rewrite js_length_zero. intros Hempty. rewrite Hempty in Hphase.
    unfold js_index in Hphase. case_decide; [| discriminate].
    rewrite lookup_nil in Hphase. discriminate. }
  rewrite decide_False by assumption.
  rewrite Hst. simpl. rewrite decide_True by assumption.
  rewrite Hphase. reflexivity.
Qed.

(** X3: from a phase index inside the phase list, when a next phase
    exists or the preset loops, [skipToNextPhase] followed by
    [skipToPreviousPhase] lands on the phase it left, at that phase's
    full duration, paused and not running. *)
Theorem skip_back_undoes_skip_forward (s : TimerState) :
  phaseInRange ap s ->
  currentPhaseIndex s + 1 < js_length (phases ap) \/ loopPhases ap = true ->
  exists s1 s2,
    skipToNextPhase (Some ap) s = Ok s1 /\
    skipToPreviousPhase (Some ap) s1 = Ok s2 /\
    enterPhase (phases ap) (currentPhaseIndex s) false paused = Ok s2.
Proof.
  intros [Hlo Hhi] Hmove.
  assert (Hlen : js_length (phases ap) <> 0) by lia.
  destruct (enterPhase_in_range ap (currentPhaseIndex s) false paused)
    as (here & _ & Hhere); [lia |].
  unfold skipToNextPhase, skipToPreviousPhase.
  rewrite !(decide_False _ _ Hlen).
  destruct (decide (currentPhaseIndex s + 1 < js_length (phases ap)))
    as [Hnext | Hlast].
  - destruct (enterPhase_in_range ap (currentPhaseIndex s + 1) false paused)
      as (next & _ & Hnext'); [lia |].
    rewrite Hnext'. do 2 eexists. split; [reflexivity |]. simpl.
    rewrite (decide_False _ _ Hlen), decide_True by lia.
    replace (currentPhaseIndex s + 1 - 1) with (currentPhaseIndex s) by lia.
    split; exact Hhere.
  - destruct Hmove as [? | Hloop]; [lia |]. rewrite Hloop.
    destruct (enterPhase_in_range ap 0 false paused)
      as (first & _ & Hfirst); [lia |].
    rewrite Hfirst. do 2 eexists. split; [reflexivity |]. simpl.
    rewrite (decide_False _ _ Hlen).
    replace (js_length (phases ap) - 1) with (currentPhaseIndex s) by lia.
    split; exact Hhere.
Qed.

End ControlsCompose.

Lemma start_after_pause_resumes_witness :
  exists s1,
    Engine.pause (Schedule.runningIn 1 17) = Ok s1 /\
    Engine.start (Some (Scenarios.workBreak false)) s1 =
      Ok (Schedule.runningIn 1 17).
Proof.
  apply (start_after_pause_resumes (Scenarios.workBreak false)
           (Schedule.runningIn 1 17));
    [discriminate | reflexivity | reflexivity | discriminate].
Defined.

Lemma skip_back_undoes_skip_forward_witness :
  exists s1 s2,
    Engine.skipToNextPhase (Some (Scenarios.workBreak true))
      (Schedule.runningIn 1 17) = Ok s1 /\
    Engine.skipToPreviousPhase (Some (Scenarios.workBreak true)) s1 = Ok s2 /\
    Engine.enterPhase (phases (Scenarios.workBreak true)) 1 false paused =
      Ok s2.
Proof.
  apply (skip_back_undoes_skip_forward (Scenarios.workBreak true)
           (Schedule.runningIn 1 17)).
  - split; [discriminate | reflexivity].
  - right. reflexivity.
Defined.

(** ** Runs of ticks *)

Section TickRuns.

Import Engine Schedule Scenarios.

Lemma ticks_add (a b : nat) (activePreset : option Preset) (s : TimerState) :
  ticks (a + b) activePreset s =
  match ticks a activePreset s with
  | Ok s' => ticks b activePreset s'
  | TypeError => TypeError
  end.
Proof.
  revert s. induction a as [| a IH]; intros s; simpl; [reflexivity |].
  destruct (tick activePreset s); [apply IH | reflexivity].
Qed.

Lemma ticks_one (activePreset : option Preset) (s : TimerState) :
  ticks 1 activePreset s = tick activePreset s.
Proof. simpl. destruct (tick activePreset s); reflexivity. Qed.

(** Away from the phase boundary [k] ticks take [k] seconds off and
    nothing else. *)
Lemma ticks_countdown (k : nat) (activePreset : option Preset)
    (t : Z) (run : bool) (st : TimerStatus) (index : Z) :
  Z.of_nat k < t ->
  ticks k activePreset
    {| totalSeconds := t; isRunning := run; status := st;
       currentPhaseIndex := index |} =
  Ok {| totalSeconds := t - Z.of_nat k; isRunning := run; status := st;
        currentPhaseIndex := index |}.
Proof.
  revert t. induction k as [| k IH]; intros t Hlt.
  - simpl. rewrite Z.sub_0_r. reflexivity.
  - cbn [ticks]. unfold tick. cbn [totalSeconds].
    rewrite decide_False by lia. cbn [isRunning status currentPhaseIndex].
    rewrite IH by lia. do 2 f_equal. lia.
Qed.

(** [t] ticks from [t] seconds to go end in the boundary tick. *)
Lemma ticks_to_boundary (activePreset : option Preset) (t : Z) (index : Z) :
  1 <= t ->
  ticks (Z.to_nat t) activePreset (runningIn index t) =
  tick activePreset (runningIn index 1).
Proof.
  intros Hpos.
  replace (Z.to_nat t) with (Z.to_nat (t - 1) + 1)%nat by lia.
  rewrite ticks_add. unfold runningIn.
  rewrite ticks_countdown by lia.
  replace (t - Z.of_nat (Z.to_nat (t - 1))) with 1 by lia.
  apply ticks_one.
Qed.

Lemma cycleSeconds_nonnegative (ps : list Phase) :
  (forall phase, phase ∈ ps -> 1 <= durationMinutes phase) ->
  0 <= cycleSeconds ps.
Proof.
  induction ps as [| phase ps IH]; intros Hpos; simpl; [lia |].
  assert (1 <= durationMinutes phase) by (apply Hpos; left).
  assert (0 <= cycleSeconds ps)
    by (apply IH; intros q Hq; apply Hpos; right; exact Hq).
  lia.
Qed.

Variable ap : Preset.

(** The ticks from [t] seconds to go in phase [i] through every later
    phase: the timer runs all the way, and the tick after the last
    second of the last phase is the one that ends the pass. *)
Lemma ticks_through_phases (rest : list Phase) :
  forall (i : nat) (t : Z),
    drop (S i) (phases ap) = rest ->
    (i < length (phases ap))%nat ->
    1 <= t ->
    (forall phase, phase ∈ rest -> 1 <= durationMinutes phase) ->
    (forall n : nat,
       Z.of_nat n < t + cycleSeconds rest ->
       exists s,
         ticks n (Some ap) (runningIn (Z.of_nat i) t) = Ok s /\
         isRunning s = true /\ status s = running /\ 1 <= totalSeconds s)
    /\
    ticks (Z.to_nat (t + cycleSeconds rest)) (Some ap)
      (runningIn (Z.of_nat i) t) =
    tick (Some ap)
      (runningIn (Z.of_nat (length (phases ap) - 1)) 1).
Proof.
  induction rest as [| phase rest IH]; intros i t Hdrop Hi Ht Hpos.
  - assert (Hlast : i = (length (phases ap) - 1)%nat).
    { apply (f_equal length) in Hdrop. rewrite length_drop in Hdrop.
      simpl in Hdrop. lia. }
    simpl. rewrite Z.add_0_r. split.
    + intros n Hn. unfold runningIn. rewrite ticks_countdown by lia.
      eexists. split; [reflexivity |]. simpl. repeat split. lia.
    + rewrite ticks_to_boundary by assumption. rewrite Hlast. reflexivity.
  - assert (Hnext : phases ap !! S i = Some phase).
    { pose proof (lookup_drop (phases ap) (S i) 0) as Hlook.
      rewrite Hdrop in Hlook. simpl in Hlook.
      rewrite Nat.add_0_r in Hlook. symmetry. exact Hlook. }
    assert (Hrest : drop (S (S i)) (phases ap) = rest).
    { rewrite (drop_S _ _ _ Hnext) in Hdrop. congruence. }
    assert (Hlen : (S i < length (phases ap))%nat)
      by (eapply lookup_lt_Some; eassumption).
    assert (Hphase : 1 <= durationMinutes phase) by (apply Hpos; left).
    assert (Hrestpos : forall q, q ∈ rest -> 1 <= durationMinutes q)
      by (intros q Hq; apply Hpos; right; exact Hq).
    pose proof (cycleSeconds_nonnegative rest Hrestpos) as Hnonneg.
    assert (Hboundary :
      ticks (Z.to_nat t) (Some ap) (runningIn (Z.of_nat i) t) =
      Ok (runningIn (Z.of_nat (S i)) (durationMinutes phase * 60))).
    { rewrite ticks_to_boundary by assumption.
      unfold tick, runningIn. simpl totalSeconds.
      rewrite decide_True by lia. simpl currentPhaseIndex.
      rewrite decide_True by (unfold js_length; lia).
      unfold enterPhase, js_index. rewrite decide_True by lia.
      replace (Z.to_nat (Z.of_nat i + 1)) with (S i) by lia.
      rewrite Hnext. do 2 f_equal. lia. }
    destruct (IH (S i) (durationMinutes phase * 60) Hrest Hlen
                ltac:(lia) Hrestpos) as [IHrun IHend].
    simpl cycleSeconds. split.
    + intros n Hn.
      destruct (decide (Z.of_nat n < t)) as [Hearly | Hlate].
      * unfold runningIn. rewrite ticks_countdown by lia.
        eexists. split; [reflexivity |]. simpl. repeat split. lia.
      * replace n with (Z.to_nat t + (n - Z.to_nat t))%nat by lia.
        rewrite ticks_add, Hboundary. apply IHrun. lia.
    + replace (Z.to_nat (t + (durationMinutes phase * 60 + cycleSeconds rest)))
        with (Z.to_nat t +
              Z.to_nat (durationMinutes phase * 60 + cycleSeconds rest))%nat
        by lia.
      rewrite ticks_add, Hboundary. exact IHend.
Qed.

(** What [start] from the initial state gives, and the pass that
    follows it. *)
Lemma start_then_pass (firstPhase : Phase) (rest : list Phase) :
  phases ap = firstPhase :: rest ->
  (forall phase, phase ∈ phases ap -> 1 <= durationMinutes phase) ->
  start (Some ap) initialState =
    Ok (runningIn 0 (durationMinutes firstPhase * 60)) /\
  (forall n : nat,
     Z.of_nat n < cycleSeconds (phases ap) ->
     exists s,
       ticks n (Some ap) (runningIn 0 (durationMinutes firstPhase * 60)) =
         Ok s /\
       isRunning s = true /\ status s = running /\ 1 <= totalSeconds s) /\
  ticks (Z.to_nat (cycleSeconds (phases ap))) (Some ap)
    (runningIn 0 (durationMinutes firstPhase * 60)) =
  tick (Some ap) (runningIn (js_length (phases ap) - 1) 1).
Proof.
  intros Hphases Hpos.
  assert (Hfirst : 1 <= durationMinutes firstPhase)
    by (apply Hpos; rewrite Hphases; left).
  split.
  - unfold start, enterPhase, js_length. rewrite Hphases. reflexivity.
  - destruct (ticks_through_phases rest 0 (durationMinutes firstPhase * 60))
      as [Hrun Hend].
    + rewrite Hphases. reflexivity.
    + rewrite Hphases. simpl. lia.
    + lia.
    + intros q Hq. apply Hpos. rewrite Hphases. right. exact Hq.
    + assert (Hcycle : cycleSeconds (phases ap) =
                       durationMinutes firstPhase * 60 + cycleSeconds rest)
        by (rewrite Hphases; reflexivity).
      assert (Hlen : Z.of_nat (length (phases ap) - 1) =
                     js_length (phases ap) - 1)
        by (unfold js_length; rewrite Hphases; simpl; lia).
      rewrite Hcycle, <- Hlen. split; [exact Hrun | exact Hend].
Qed.

(** X4: a preset that does not loop, with phases that each last at
    least a minute, started from the initial state: the timer is still
    running with at least a second to go after every number of ticks
    below the sum of its phases' seconds, and after exactly that many
    ticks it has stopped, completed, at zero in the last phase. *)
Theorem run_to_completion :
  loopPhases ap = false ->
  phases ap <> [] ->
  (forall phase, phase ∈ phases ap -> 1 <= durationMinutes phase) ->
  exists s0,
    start (Some ap) initialState = Ok s0 /\
    (forall n : nat,
       Z.of_nat n < cycleSeconds (phases ap) ->
       exists s,
         ticks n (Some ap) s0 = Ok s /\
         isRunning s = true /\ status s = running /\ 1 <= totalSeconds s) /\
    ticks (Z.to_nat (cycleSeconds (phases ap))) (Some ap) s0 =
    Ok {| totalSeconds := 0; isRunning := false; status := completed;
          currentPhaseIndex := js_length (phases ap) - 1 |}.
Proof.
  intros Hloop Hphases Hpos.
  destruct (phases ap) as [| firstPhase rest] eqn:Hlist; [contradiction |].
  rewrite <- Hlist in *.
  destruct (start_then_pass firstPhase rest Hlist Hpos)
    as (Hstart & Hrun & Hend).
  eexists. split; [exact Hstart |]. split; [exact Hrun |].
  rewrite Hend. unfold tick, runningIn. simpl.
  rewrite decide_False by lia. rewrite Hloop. reflexivity.
Qed.

(** X5: a looping preset with phases that each last at least a minute,
    started from the initial state, is back in the state it started in
    after exactly the sum of its phases' seconds in ticks, and running
    with at least a second to go at every tick before. *)
Theorem looping_pass_returns_to_start :
  loopPhases ap = true ->
  phases ap <> [] ->
  (forall phase, phase ∈ phases ap -> 1 <= durationMinutes phase) ->
  exists s0,
    start (Some ap) initialState = Ok s0 /\
    (forall n : nat,
       Z.of_nat n < cycleSeconds (phases ap) ->
       exists s,
         ticks n (Some ap) s0 = Ok s /\
         isRunning s = true /\ status s = running /\ 1 <= totalSeconds s) /\
    ticks (Z.to_nat (cycleSeconds (phases ap))) (Some ap) s0 = Ok s0.
Proof.
  intros Hloop Hphases Hpos.
  destruct (phases ap) as [| firstPhase rest] eqn:Hlist; [contradiction |].
  rewrite <- Hlist in *.
  destruct (start_then_pass firstPhase rest Hlist Hpos)
    as (Hstart & Hrun & Hend).
  eexists. split; [exact Hstart |]. split; [exact Hrun |].
  rewrite Hend. unfold tick, runningIn. simpl.
  rewrite decide_False by lia. rewrite Hloop.
  unfold enterPhase. rewrite Hlist. reflexivity.
Qed.

(** X6: under a looping preset a running timer whose phase index
    points into the phase list never stops by itself: after any number
    of ticks it is running, with status [running], in a phase of the
    list. *)
Theorem looping_never_stops (s : TimerState) (n : nat) :
  loopPhases ap = true ->
  phaseInRange ap s ->
  isRunning s = true ->
  status s = running ->
  exists s',
    ticks n (Some ap) s = Ok s' /\
    phaseInRange ap s' /\ isRunning s' = true /\ status s' = running.
Proof.
  intros Hloop. revert s.
  induction n as [| n IH]; intros s Hrange Hrun Hst.
  - exists s. repeat split; solve [assumption | apply Hrange].
  - assert (Hstep : exists s1,
      tick (Some ap) s = Ok s1 /\
      phaseInRange ap s1 /\ isRunning s1 = true /\ status s1 = running).
    { pose proof Hrange as [Hlo Hhi]. unfold tick. rewrite Hloop.
      repeat case_match.
      - destruct (enterPhase_in_range ap (currentPhaseIndex s + 1)
                    true running) as (phase & _ & ->); [lia |].
        eexists. split; [reflexivity |]. repeat split; simpl; lia.
      - destruct (enterPhase_in_range ap 0 true running)
          as (phase & _ & ->); [lia |].
        eexists. split; [reflexivity |]. repeat split; simpl; lia.
      - eexists. split; [reflexivity |].
        repeat split; simpl; solve [assumption | lia]. }
    destruct Hstep as (s1 & Htick & Hrange1 & Hrun1 & Hst1).
    cbn [ticks]. rewrite Htick. apply IH; assumption.
Qed.

End TickRuns.

Lemma run_to_completion_witness :
  exists s0,
    Engine.start (Some (Scenarios.workBreak false)) Engine.initialState =
      Ok s0 /\
    (forall n : nat,
       Z.of_nat n < Schedule.cycleSeconds (phases (Scenarios.workBreak false)) ->
       exists s,
         Scenarios.ticks n (Some (Scenarios.workBreak false)) s0 = Ok s /\
         isRunning s = true /\ status s = running /\ 1 <= totalSeconds s) /\
    Scenarios.ticks
      (Z.to_nat (Schedule.cycleSeconds (phases (Scenarios.workBreak false))))
      (Some (Scenarios.workBreak false)) s0 =
    Ok {| totalSeconds := 0; isRunning := false; status := completed;
          currentPhaseIndex := js_length (phases (Scenarios.workBreak false)) - 1 |}.
Proof.
  apply (run_to_completion (Scenarios.workBreak false));
    [reflexivity | discriminate |].
  apply Forall_forall. repeat constructor; simpl; lia.
Defined.

Lemma looping_pass_returns_to_start_witness :
  exists s0,
    Engine.start (Some (Scenarios.workBreak true)) Engine.initialState =
      Ok s0 /\
    (forall n : nat,
       Z.of_nat n < Schedule.cycleSeconds (phases (Scenarios.workBreak true)) ->
       exists s,
         Scenarios.ticks n (Some (Scenarios.workBreak true)) s0 = Ok s /\
         isRunning s = true /\ status s = running /\ 1 <= totalSeconds s) /\
    Scenarios.ticks
      (Z.to_nat (Schedule.cycleSeconds (phases (Scenarios.workBreak true))))
      (Some (Scenarios.workBreak true)) s0 = Ok s0.
Proof.
  apply (looping_pass_returns_to_start (Scenarios.workBreak true));
    [reflexivity | discriminate |].
  apply Forall_forall. repeat constructor; simpl; lia.
Defined.

Lemma looping_never_stops_witness :
  exists s',
    Scenarios.ticks 1000 (Some (Scenarios.workBreak true))
      (Schedule.runningIn 1 17) = Ok s' /\
    Schedule.phaseInRange (Scenarios.workBreak true) s' /\
    isRunning s' = true /\ status s' = running.
Proof.
  apply (looping_never_stops (Scenarios.workBreak true)
           (Schedule.runningIn 1 17) 1000);
    [reflexivity | | reflexivity | reflexivity].
  split; [discriminate | reflexivity].
Defined.

(** * Further properties of reconciliation and of the stores *)

Section ReconciliationAgain.

Import Persistence.

(** X7: reconciling twice at the same instant is reconciling once. *)
Theorem calculateRestoredState_idempotent (now : Z)
    (s : PersistedTimerState) :
  calculateRestoredState now (calculateRestoredState now s) =
  calculateRestoredState now s.
Proof.
  destruct (p_isRunning s) eqn:Hrun;
    [destruct (decide (p_status s = running)) as [Hst | Hst] |].
  - rewrite (calculateRestoredState_counting now s Hrun Hst).
    case_decide as Hzero.
    + apply calculateRestoredState_not_running_eq. left. reflexivity.
    + remember (Z.max 0 (p_totalSeconds s - (now - p_savedAt s) / 1000))
        as remaining eqn:Hremaining.
      rewrite calculateRestoredState_counting by reflexivity. simpl.
      replace (Z.max 0 (remaining - (now - now) / 1000)) with remaining.
      2: { rewrite Z.sub_diag. change (0 / 1000) with 0. lia. }
      rewrite decide_False by assumption. reflexivity.
  - rewrite !(calculateRestoredState_not_running_eq now s)
      by (right; assumption).
    reflexivity.
  - rewrite !(calculateRestoredState_not_running_eq now s)
      by (left; assumption).
    reflexivity.
Qed.

(** The seconds left after reconciling a counting snapshot. *)
Lemma calculateRestoredState_seconds (now : Z) (s : PersistedTimerState) :
  p_isRunning s = true -> p_status s = running ->
  p_totalSeconds (calculateRestoredState now s) =
  Z.max 0 (p_totalSeconds s - (now - p_savedAt s) / 1000).
Proof.
  intros Hrun Hst. rewrite calculateRestoredState_counting by assumption.
  case_decide as Hzero; simpl; [symmetry; exact Hzero | reflexivity].
Qed.

(** X8: for a snapshot that was running with status [running], the
    reconciled seconds are never negative, are at most the saved ones
    when those are not negative and [now] is not before [savedAt], and
    never grow when [now] grows. *)
Theorem calculateRestoredState_bounds (now : Z) (s : PersistedTimerState) :
  p_isRunning s = true ->
  p_status s = running ->
  0 <= p_totalSeconds (calculateRestoredState now s) /\
  (0 <= p_totalSeconds s -> p_savedAt s <= now ->
   p_totalSeconds (calculateRestoredState now s) <= p_totalSeconds s) /\
  (forall later, now <= later ->
   p_totalSeconds (calculateRestoredState later s) <=
   p_totalSeconds (calculateRestoredState now s)).
Proof.
  intros Hrun Hst.
  rewrite calculateRestoredState_seconds by assumption.
  split; [lia |]. split.
  - intros Hnonneg Hpast.
    assert (0 <= (now - p_savedAt s) / 1000)
      by (apply Z.div_pos; lia).
    lia.
  - intros later Hlater.
    rewrite calculateRestoredState_seconds by assumption.
    assert ((now - p_savedAt s) / 1000 <= (later - p_savedAt s) / 1000)
      by (apply Z.div_le_mono; lia).
    lia.
Qed.

(** X9: reconciling at [now1] and again at a later [now2] leaves at
    least as many seconds as reconciling once at [now2], and at most one
    second more: each reconciliation drops the part of a second that had
    elapsed. *)
Theorem calculateRestoredState_twice (now1 now2 : Z)
    (s : PersistedTimerState) :
  p_isRunning s = true ->
  p_status s = running ->
  now1 <= now2 ->
  let once := p_totalSeconds (calculateRestoredState now2 s) in
  let twice :=
    p_totalSeconds
      (calculateRestoredState now2 (calculateRestoredState now1 s)) in
  once <= twice <= once + 1.
Proof.
  intros Hrun Hst Horder once twice. subst once twice.
  rewrite (calculateRestoredState_seconds now2 s Hrun Hst).
  pose proof (Z.div_mod (now1 - p_savedAt s) 1000 ltac:(lia)) as Hd1.
  pose proof (Z.mod_pos_bound (now1 - p_savedAt s) 1000 ltac:(lia)) as Hm1.
  pose proof (Z.div_mod (now2 - now1) 1000 ltac:(lia)) as Hd2.
  pose proof (Z.mod_pos_bound (now2 - now1) 1000 ltac:(lia)) as Hm2.
  pose proof (Z.div_mod (now2 - p_savedAt s) 1000 ltac:(lia)) as Hd.
  pose proof (Z.mod_pos_bound (now2 - p_savedAt s) 1000 ltac:(lia)) as Hm.
  rewrite (calculateRestoredState_counting now1 s Hrun Hst).
  case_decide as Hzero.
  - rewrite calculateRestoredState_not_running_eq by (left; reflexivity).
    simpl. lia.
  - rewrite calculateRestoredState_seconds by reflexivity. simpl. lia.
Qed.

End ReconciliationAgain.

Lemma calculateRestoredState_bounds_witness :
  0 <= p_totalSeconds
         (Persistence.calculateRestoredState 41000 (Scenarios.runningAt 1000)) /\
  (0 <= p_totalSeconds (Scenarios.runningAt 1000) ->
   p_savedAt (Scenarios.runningAt 1000) <= 41000 ->
   p_totalSeconds
     (Persistence.calculateRestoredState 41000 (Scenarios.runningAt 1000)) <=
   p_totalSeconds (Scenarios.runningAt 1000)) /\
  (forall later, 41000 <= later ->
   p_totalSeconds
     (Persistence.calculateRestoredState later (Scenarios.runningAt 1000)) <=
   p_totalSeconds
     (Persistence.calculateRestoredState 41000 (Scenarios.runningAt 1000))).
Proof.
  apply (calculateRestoredState_bounds 41000 (Scenarios.runningAt 1000));
    reflexivity.
Defined.

Lemma calculateRestoredState_twice_witness :
  p_totalSeconds
    (Persistence.calculateRestoredState 4000 (Scenarios.runningAt 1000)) <=
  p_totalSeconds
    (Persistence.calculateRestoredState 4000
       (Persistence.calculateRestoredState 2500 (Scenarios.runningAt 1000))) <=
  p_totalSeconds
    (Persistence.calculateRestoredState 4000 (Scenarios.runningAt 1000)) + 1.
Proof.
  apply (calculateRestoredState_twice 2500 4000 (Scenarios.runningAt 1000));
    [reflexivity | reflexivity | discriminate].
Defined.

(** The second of drift: saved at 1000 and reconciled at 2500 and at
    4000, the countdown has lost two seconds; reconciled once at 4000 it
    has lost three. *)
Example reconcile_twice_drifts :
  p_totalSeconds
    (Persistence.calculateRestoredState 4000
       (Persistence.calculateRestoredState 2500 (Scenarios.runningAt 1000))) = 98 /\
  p_totalSeconds
    (Persistence.calculateRestoredState 4000 (Scenarios.runningAt 1000)) = 97.
Proof. split; reflexivity. Qed.

Section StoresCompose.

Import Provider.

(** X10: a timer that is not running, saved by the unload handler and
    restored at the next mount, comes back as it was whatever time has
    passed, with the guard armed for the preset id it was saved under; a
    running one comes back with the whole seconds that passed taken off,
    as long as fewer passed than were left. *)
Theorem unload_then_mount_restores (now later : Z) (u : option string)
    (remote : gmap string PersistedTimerState) (w : Provider) :
  let reloaded :=
    mount later u (localStorage (handleBeforeUnload now w)) remote in
  (isRunning (timerState w) = false ->
   timerState reloaded = timerState w /\
   hasRestoredState reloaded = true /\
   restoredPresetIdRef reloaded = activePresetId w)
  /\
  (isRunning (timerState w) = true ->
   status (timerState w) = running ->
   (later - now) / 1000 < totalSeconds (timerState w) ->
   timerState reloaded =
   {| totalSeconds := totalSeconds (timerState w) - (later - now) / 1000;
      isRunning := true;
      status := running;
      currentPhaseIndex := currentPhaseIndex (timerState w) |}).
Proof.
  intros reloaded. subst reloaded.
  unfold mount, handleBeforeUnload, getInitialTimerState. simpl.
  split.
  - intros Hstopped.
    rewrite calculateRestoredState_not_running_eq by (left; exact Hstopped).
    rewrite timerStateOf_currentSnapshot. repeat split.
  - intros Hrun Hst Hleft.
    rewrite calculateRestoredState_counting by assumption. simpl.
    rewrite decide_False by lia. unfold timerStateOf. simpl.
    f_equal. lia.
Qed.

(** Adopting a remote snapshot leaves the local store at least as new
    as that snapshot, unless it was counting and saved after [now]. *)
Lemma adoptIfNewer_once (now1 now2 : Z) (fs : PersistedTimerState)
    (w : Provider) :
  p_savedAt fs <= now1 \/ p_isRunning fs = false \/ p_status fs <> running ->
  adoptIfNewer now2 (Some fs) (adoptIfNewer now1 (Some fs) w) =
  adoptIfNewer now1 (Some fs) w.
Proof.
  intros Hpast.
  assert (Hstamp :
    p_savedAt fs <= p_savedAt (Persistence.calculateRestoredState now1 fs)).
  { destruct (p_isRunning fs) eqn:Hrun;
      [destruct (decide (p_status fs = running)) as [Hst | Hst] |].
    - rewrite calculateRestoredState_savedAt by assumption.
      destruct Hpast as [? | [? | ?]]; [lia | discriminate | contradiction].
    - rewrite calculateRestoredState_not_running_eq by (right; assumption).
      lia.
    - rewrite calculateRestoredState_not_running_eq by (left; assumption).
      lia. }
  destruct (match localStorage w with
            | None => true
            | Some ls => bool_decide (p_savedAt fs > p_savedAt ls)
            end) eqn:Htest.
  - apply newer_test in Htest.
    rewrite (adoptIfNewer_adopts now1 fs w Htest).
    apply adoptIfNewer_keeps.
    intros (fs' & [= <-] & [Hnone | (ls & Hls & Hgt)]).
    + discriminate.
    + simpl in Hls. injection Hls as <-. lia.
  - assert (Hkeeps : forall now, adoptIfNewer now (Some fs) w = w).
    { intros now. apply adoptIfNewer_keeps.
      intros (fs' & [= <-] & Hnewer).
      apply newer_test in Hnewer. congruence. }
    rewrite !Hkeeps. reflexivity.
Qed.

(** X11: a remote snapshot is adopted at most once: after
    [loadFirebaseState] has seen it, seeing the same snapshot again at
    any time changes nothing, provided the snapshot was not a counting
    one saved later than the first load. *)
Theorem loadFirebaseState_once (now1 now2 : Z) (fs : PersistedTimerState)
    (w : Provider) :
  p_savedAt fs <= now1 \/ p_isRunning fs = false \/ p_status fs <> running ->
  loadFirebaseState now2 (Some fs) (loadFirebaseState now1 (Some fs) w) =
  loadFirebaseState now1 (Some fs) w.
Proof.
  intros Hpast.
  destruct (user w) as [uid |] eqn:Huser;
    [destruct (syncTimerStateRef w) eqn:Hsync |].
  - assert (Hkept :
      user (adoptIfNewer now1 (Some fs) w) = Some uid /\
      syncTimerStateRef (adoptIfNewer now1 (Some fs) w) = true).
    { unfold adoptIfNewer. case_match; simpl; split; assumption. }
    destruct Hkept as [Huser' Hsync'].
    rewrite (loadFirebaseState_enabled now1 (Some fs) w uid Huser Hsync).
    rewrite (loadFirebaseState_enabled now2 (Some fs) _ uid Huser' Hsync').
    apply adoptIfNewer_once. assumption.
  - rewrite !(loadFirebaseState_disabled _ (Some fs) w) by (right; assumption).
    reflexivity.
  - rewrite !(loadFirebaseState_disabled _ (Some fs) w) by (left; assumption).
    reflexivity.
Qed.

(** X12: a provider does not adopt its own write: once the save effect
    has written a snapshot to both stores, [loadFirebaseState] reading
    the user's remote document changes nothing, at any later time. *)
Theorem own_write_not_adopted (now later : Z) (uid : string)
    (w : Provider) :
  user w = Some uid ->
  syncTimerStateRef w = true ->
  bool_decide (status (timerState w) = idle)
    && bool_decide (totalSeconds (timerState w) = 0)
    && noPresetId (activePresetId w) = false ->
  let saved := saveEffect now true w in
  firebase saved !! uid = localStorage saved /\
  loadFirebaseState later (firebase saved !! uid) saved = saved.
Proof.
  intros Huser Hsync Hwrites saved. subst saved.
  unfold saveEffect. rewrite Hwrites. simpl. rewrite Hsync, Huser.
  unfold saveTimerStateFirebase. simpl.
  rewrite lookup_insert_eq. split; [reflexivity |].
  unfold loadFirebaseState. simpl. rewrite Huser, Hsync. simpl.
  unfold adoptIfNewer. simpl.
  rewrite bool_decide_eq_false_2 by lia. reflexivity.
Qed.

(** X13: with sync off, or with nobody signed in, no step writes the
    remote store or starts reading it: the remote documents stay as they
    are, and no load is added to the pending ones. *)
Theorem no_remote_traffic_without_sync (w w' : Provider) :
  step w w' ->
  syncTimerStateRef w = false \/ user w = None ->
  firebase w' = firebase w /\
  (pendingLoads w' = pendingLoads w \/ pendingLoads w' = []).
Proof.
  intros Hstep Hoff.
  destruct Hstep; simpl;
    try (split; [reflexivity | left; reflexivity]).
  - unfold initEffect in *. repeat case_match; simplify_eq; simpl;
      split; solve [reflexivity | left; reflexivity].
  - unfold saveEffect. repeat case_match; simpl;
      try (split; [reflexivity | left; reflexivity]).
    simpl in *. destruct Hoff; congruence.
  - destruct Hoff; congruence.
  - unfold adoptIfNewer. repeat case_match; simpl;
      split; solve [reflexivity | left; reflexivity].
  - split; [reflexivity | right; reflexivity].
Qed.

End StoresCompose.

Lemma unload_then_mount_restores_witness :
  Provider.timerState
    (Provider.mount 9000 None
       (Provider.localStorage
          (Provider.handleBeforeUnload 2000 Scenarios.adopted)) ∅) =
    Provider.timerState Scenarios.adopted /\
  Provider.timerState
    (Provider.mount 9000 None
       (Provider.localStorage
          (Provider.handleBeforeUnload 2000 Scenarios.started)) ∅) =
    {| totalSeconds := 53; isRunning := true; status := running;
       currentPhaseIndex := 0 |}.
Proof.
  split.
  - apply (proj1 (unload_then_mount_restores 2000 9000 None ∅
                    Scenarios.adopted)).
    reflexivity.
  - apply (proj2 (unload_then_mount_restores 2000 9000 None ∅
                    Scenarios.started));
      reflexivity.
Defined.

Lemma loadFirebaseState_once_witness :
  Provider.loadFirebaseState 9000 (Some Scenarios.pausedInBreak)
    Scenarios.adopted = Scenarios.adopted.
Proof.
  apply (loadFirebaseState_once 5000 9000 Scenarios.pausedInBreak
           (Scenarios.session Scenarios.pausedInBreak)).
  left. discriminate.
Defined.

Lemma own_write_not_adopted_witness :
  Provider.firebase (Provider.saveEffect 2000 true Scenarios.started)
    !! "u" =
  Provider.localStorage (Provider.saveEffect 2000 true Scenarios.started) /\
  Provider.loadFirebaseState 9000
    (Provider.firebase (Provider.saveEffect 2000 true Scenarios.started)
       !! "u")
    (Provider.saveEffect 2000 true Scenarios.started) =
  Provider.saveEffect 2000 true Scenarios.started.
Proof.
  apply (own_write_not_adopted 2000 9000 "u" Scenarios.started);
    reflexivity.
Defined.

Lemma no_remote_traffic_without_sync_witness :
  Provider.firebase
    (Provider.saveEffect 2000 true
       (Provider.setTimerState (Schedule.runningIn 0 60)
          (Provider.boot 0 (Some "u")))) =
  Provider.firebase
    (Provider.setTimerState (Schedule.runningIn 0 60)
       (Provider.boot 0 (Some "u"))) /\
  (Provider.pendingLoads
     (Provider.saveEffect 2000 true
        (Provider.setTimerState (Schedule.runningIn 0 60)
           (Provider.boot 0 (Some "u")))) =
   Provider.pendingLoads
     (Provider.setTimerState (Schedule.runningIn 0 60)
        (Provider.boot 0 (Some "u"))) \/
   Provider.pendingLoads
     (Provider.saveEffect 2000 true
        (Provider.setTimerState (Schedule.runningIn 0 60)
           (Provider.boot 0 (Some "u")))) = []).
Proof.
  apply (no_remote_traffic_without_sync
           (Provider.setTimerState (Schedule.runningIn 0 60)
              (Provider.boot 0 (Some "u")))).
  - apply Provider.step_saveEffect.
  - left. reflexivity.
Defined.

Lemma controls_stay_in_range_witness :
  (exists s', Engine.start (Some (Scenarios.workBreak false))
                (Schedule.runningIn 1 17) = Ok s' /\
              Schedule.phaseInRange (Scenarios.workBreak false) s') /\
  (exists s', Engine.pause (Schedule.runningIn 1 17) = Ok s' /\
              Schedule.phaseInRange (Scenarios.workBreak false) s') /\
  (exists s', Engine.reset (Some (Scenarios.workBreak false))
                (Schedule.runningIn 1 17) = Ok s' /\
              Schedule.phaseInRange (Scenarios.workBreak false) s') /\
  (exists s', Engine.skipToNextPhase (Some (Scenarios.workBreak false))
                (Schedule.runningIn 1 17) = Ok s' /\
              Schedule.phaseInRange (Scenarios.workBreak false) s') /\
  (exists s', Engine.skipToPreviousPhase (Some (Scenarios.workBreak false))
                (Schedule.runningIn 1 17) = Ok s' /\
              Schedule.phaseInRange (Scenarios.workBreak false) s') /\
  (forall index,
     exists s', Engine.goToPhase (Some (Scenarios.workBreak false)) index
                  (Schedule.runningIn 1 17) = Ok s' /\
                Schedule.phaseInRange (Scenarios.workBreak false) s') /\
  (exists s', Engine.tick (Some (Scenarios.workBreak false))
                (Schedule.runningIn 1 17) = Ok s' /\
              Schedule.phaseInRange (Scenarios.workBreak false) s').
Proof.
  apply (controls_stay_in_range (Scenarios.workBreak false)
           (Schedule.runningIn 1 17)).
  split; [discriminate | reflexivity].
Defined.

(** * The displayed time *)

Section DisplayedTime.

Import Display.

Example toString_examples :
  toString 0 = "0" /\ toString 7 = "7" /\ toString 25 = "25" /\
  toString 1500 = "1500" /\ toString (-5) = "-5".
Proof. repeat split. Qed.

Example digits_examples :
  digits 1500 = ["0"; "0"; "2"; "5"; "0"; "0"]%char /\
  digits 10799 = ["0"; "2"; "5"; "9"; "5"; "9"]%char /\
  formatted 3661 = "01:01:01".
Proof. repeat split. Qed.

(** Below one hundred a padded number is its two decimal digits. *)
Lemma padStart_two_digits (n : Z) :
  0 <= n < 100 ->
  padStart 2 "0" (toString n) =
  String (digitChar (n / 10)) (String (digitChar (n mod 10)) EmptyString).
Proof.
  intros Hrange.
  assert (Hnat : exists k : nat, (k < 100)%nat /\ n = Z.of_nat k)
    by (exists (Z.to_nat n); lia).
  destruct Hnat as (k & Hk & ->). clear Hrange.
  do 100 (destruct k as [| k]; [vm_compute; reflexivity |]).
  lia.
Qed.

Lemma decimalDigits_length (fuel : nat) (n : Z) (acc : string) :
  (String.length acc <= String.length (decimalDigits fuel n acc))%nat.
Proof.
  revert n acc. induction fuel as [| fuel IH]; intros n acc; simpl; [lia |].
  case_decide; simpl; [lia |].
  etransitivity; [| apply IH]. simpl. lia.
Qed.

(** From one hundred on a number has at least three digits. *)
Lemma toString_long (n : Z) :
  100 <= n -> (3 <= String.length (toString n))%nat.
Proof.
  intros Hbig. unfold toString. rewrite decide_False by lia.
  assert (Hlog : 6 <= Z.log2 n).
  { change 6 with (Z.log2 100). apply Z.log2_le_mono. assumption. }
  destruct (Z.to_nat (Z.log2 n)) as [| [| fuel]] eqn:Hfuel; [lia | lia |].
  cbn [decimalDigits].
  assert (10 <= n / 10) by (apply Z.div_le_lower_bound; lia).
  assert (1 <= n / 10 / 10) by (apply Z.div_le_lower_bound; lia).
  rewrite decide_False by lia. rewrite decide_False by lia.
  case_decide; [simpl; lia |].
  etransitivity; [| apply decimalDigits_length]. simpl. lia.
Qed.

Lemma padStart_long (pad : ascii) (s : string) :
  (2 <= String.length s)%nat -> padStart 2 pad s = s.
Proof.
  intros Hlong. unfold padStart.
  replace (2 - String.length s)%nat with 0%nat by lia. reflexivity.
Qed.

Lemma padStart_length (pad : ascii) (s : string) :
  (2 <= String.length (padStart 2 pad s))%nat.
Proof.
  unfold padStart.
  destruct s as [| a [| b s]]; simpl; lia.
Qed.

(** The characters of a string, counted. *)
Lemma length_chars (s : string) :
  length (String.list_ascii_of_string s) = String.length s.
Proof. induction s as [| a s IH]; simpl; [reflexivity | by rewrite IH]. Qed.

Lemma length_append (s1 s2 : string) :
  String.length (s1 +:+ s2) = (String.length s1 + String.length s2)%nat.
Proof. induction s1 as [| a s1 IH]; simpl; [reflexivity | by rewrite IH]. Qed.

(** Splitting seconds that are not negative. *)
Lemma secondsToTime_parts (totalSeconds : Z) :
  0 <= totalSeconds ->
  0 <= hours (secondsToTime totalSeconds) /\
  0 <= minutes (secondsToTime totalSeconds) < 60 /\
  0 <= seconds (secondsToTime totalSeconds) < 60 /\
  hours (secondsToTime totalSeconds) * 3600 +
  minutes (secondsToTime totalSeconds) * 60 +
  seconds (secondsToTime totalSeconds) = totalSeconds.
Proof.
  intros Hnonneg. unfold secondsToTime, js_rem. simpl.
  rewrite !Z.rem_mod_nonneg by lia.
  pose proof (Z.div_mod totalSeconds 3600 ltac:(lia)).
  pose proof (Z.mod_pos_bound totalSeconds 3600 ltac:(lia)).
  pose proof (Z.div_mod (totalSeconds mod 3600) 60 ltac:(lia)).
  pose proof (Z.mod_pos_bound (totalSeconds mod 3600) 60 ltac:(lia)).
  pose proof (Z.mod_pos_bound totalSeconds 60 ltac:(lia)).
  assert (0 <= totalSeconds / 3600) by (apply Z.div_pos; lia).
  assert (0 <= totalSeconds mod 3600 / 60) by (apply Z.div_pos; lia).
  assert (totalSeconds mod 3600 / 60 < 60)
    by (apply Z.div_lt_upper_bound; lia).
  assert (Hsec : totalSeconds mod 60 = (totalSeconds mod 3600) mod 60).
  { symmetry.
    apply (Z.mod_unique _ _
             (totalSeconds / 3600 * 60 + totalSeconds mod 3600 / 60));
      lia. }
  repeat split; lia.
Qed.

(** Splitting seconds put together from parts. *)
Lemma secondsToTime_of_parts (h m s : Z) :
  0 <= h -> 0 <= m < 60 -> 0 <= s < 60 ->
  secondsToTime (h * 3600 + m * 60 + s) =
  {| hours := h; minutes := m; seconds := s |}.
Proof.
  intros Hh Hm Hs. unfold secondsToTime, js_rem.
  rewrite !Z.rem_mod_nonneg by lia.
  f_equal.
  - symmetry. apply (Z.div_unique _ _ _ (m * 60 + s)); lia.
  - assert (Hrem : (h * 3600 + m * 60 + s) mod 3600 = m * 60 + s)
      by (symmetry; apply (Z.mod_unique _ _ h); lia).
    rewrite Hrem. symmetry. apply (Z.div_unique _ _ _ s); lia.
  - symmetry. apply (Z.mod_unique _ _ (h * 60 + m)); lia.
Qed.

(** The two-digit display of seconds below one hundred hours. *)
Lemma digits_below_hundred_hours (totalSeconds : Z) :
  0 <= totalSeconds < 360000 ->
  let t := secondsToTime totalSeconds in
  digits totalSeconds =
    [digitChar (hours t / 10); digitChar (hours t mod 10);
     digitChar (minutes t / 10); digitChar (minutes t mod 10);
     digitChar (seconds t / 10); digitChar (seconds t mod 10)] /\
  formatted totalSeconds =
    String (digitChar (hours t / 10)) (String (digitChar (hours t mod 10))
      (String ":"
        (String (digitChar (minutes t / 10))
          (String (digitChar (minutes t mod 10))
            (String ":"
              (String (digitChar (seconds t / 10))
                (String (digitChar (seconds t mod 10)) EmptyString))))))).
Proof.
  intros [Hlo Hhi] t.
  destruct (secondsToTime_parts totalSeconds Hlo) as (Hh & Hm & Hs & Hsum).
  fold t in Hh, Hm, Hs, Hsum.
  assert (hours t < 100) by lia.
  unfold digits, formatted, formatTimeDigits, formattedTime. fold t.
  rewrite !padStart_two_digits by lia. split; reflexivity.
Qed.

(** X14: [secondsToTime] splits a number of seconds that is not
    negative into hours, minutes below 60 and seconds below 60 that add
    up to it again; and hours, minutes below 60 and seconds below 60 put
    together as seconds are split into themselves. *)
Theorem secondsToTime_roundtrip :
  (forall totalSeconds,
     0 <= totalSeconds ->
     let t := secondsToTime totalSeconds in
     0 <= hours t /\ 0 <= minutes t < 60 /\ 0 <= seconds t < 60 /\
     hours t * 3600 + minutes t * 60 + seconds t = totalSeconds)
  /\
  (forall h m s,
     0 <= h -> 0 <= m < 60 -> 0 <= s < 60 ->
     secondsToTime (h * 3600 + m * 60 + s) =
     {| hours := h; minutes := m; seconds := s |}).
Proof.
  split.
  - intros totalSeconds Hnonneg t. apply secondsToTime_parts. assumption.
  - apply secondsToTime_of_parts.
Qed.

(** A negative number of seconds is not split into parts that add up
    to it. *)
Example secondsToTime_negative :
  secondsToTime (-1) = {| hours := -1; minutes := -1; seconds := -1 |}.
Proof. reflexivity. Qed.

(** X15: for remaining seconds from 0 up to 99:59:59 the display is
    exactly six characters, the two decimal digits each of the hours,
    the minutes and the seconds, and [formattedTime] is the same digits
    with a colon after the second and the fourth. *)
Theorem digits_six (totalSeconds : Z) :
  0 <= totalSeconds < 360000 ->
  let t := secondsToTime totalSeconds in
  digits totalSeconds =
    [digitChar (hours t / 10); digitChar (hours t mod 10);
     digitChar (minutes t / 10); digitChar (minutes t mod 10);
     digitChar (seconds t / 10); digitChar (seconds t mod 10)] /\
  formatted totalSeconds =
    String (digitChar (hours t / 10)) (String (digitChar (hours t mod 10))
      (String ":"
        (String (digitChar (minutes t / 10))
          (String (digitChar (minutes t mod 10))
            (String ":"
              (String (digitChar (seconds t / 10))
                (String (digitChar (seconds t mod 10)) EmptyString))))))).
Proof. apply digits_below_hundred_hours. Qed.

(** X16: from one hundred hours on the display is wider than six
    characters. *)
Theorem digits_overflow (totalSeconds : Z) :
  360000 <= totalSeconds ->
  (6 < length (digits totalSeconds))%nat.
Proof.
  intros Hbig. unfold digits, formatTimeDigits.
  assert (Hhours : 100 <= hours (secondsToTime totalSeconds))
    by (simpl; apply Z.div_le_lower_bound; lia).
  apply toString_long in Hhours.
  rewrite padStart_long by lia.
  pose proof (padStart_length "0"
                (toString (minutes (secondsToTime totalSeconds)))) as Hm.
  pose proof (padStart_length "0"
                (toString (seconds (secondsToTime totalSeconds)))) as Hs.
  rewrite length_chars, !length_append. lia.
Qed.

End DisplayedTime.

Lemma secondsToTime_roundtrip_witness :
  Display.secondsToTime 3661 =
  {| Display.hours := 1; Display.minutes := 1; Display.seconds := 1 |}.
Proof.
  apply (proj2 secondsToTime_roundtrip 1 1 1); lia.
Defined.

Lemma digits_six_witness :
  Display.digits 1500 = ["0"; "0"; "2"; "5"; "0"; "0"]%char /\
  Display.formatted 1500 = "00:25:00".
Proof.
  apply (digits_six 1500). lia.
Defined.

Lemma digits_overflow_witness :
  (6 < length (Display.digits 360000))%nat.
Proof.
  apply (digits_overflow 360000). lia.
Defined.

(** * The [useTimer] hook *)

Section Hook.

Import HookTimer.

(** Seconds passing while the countdown is away from its end. *)
Lemma countdownSeconds_running (k : nat) (t : Z) (ref : Z) (calls : nat) :
  Z.of_nat k < t ->
  countdownSeconds k countdown
    {| totalSeconds := t; isRunning := true; initialSecondsRef := ref;
       onCompleteCalls := calls |} =
  {| totalSeconds := t - Z.of_nat k; isRunning := true;
     initialSecondsRef := ref; onCompleteCalls := calls |}.
Proof.
  revert t. induction k as [| k IH]; intros t Hlt.
  - simpl. rewrite Z.sub_0_r. reflexivity.
  - cbn [countdownSeconds]. unfold countdownSecond, countdownTick. simpl.
    rewrite decide_False by lia. rewrite IH by lia. f_equal. lia.
Qed.

(** Seconds passing once the countdown has stopped. *)
Lemma countdownSeconds_stopped (k : nat) (mode : TimerMode)
    (st : HookState) :
  isRunning st = false -> countdownSeconds k mode st = st.
Proof.
  intros Hstopped. induction k as [| k IH]; [reflexivity |].
  cbn [countdownSeconds]. unfold countdownSecond.
  rewrite Hstopped, andb_false_r. exact IH.
Qed.

Lemma countdownSeconds_add (a b : nat) (mode : TimerMode) (st : HookState) :
  countdownSeconds (a + b) mode st =
  countdownSeconds b mode (countdownSeconds a mode st).
Proof.
  revert st. induction a as [| a IH]; intros st; [reflexivity |].
  simpl. apply IH.
Qed.

(** X17: a countdown set to [n >= 1] seconds and started shows [n - k]
    and is running after [k < n] seconds, without having called
    [onComplete]; from [n] seconds on it is stopped at zero and has
    called [onComplete] exactly once; and [start] then sets it to [n]
    again, running. *)
Theorem hook_countdown (n : Z) (st : HookState) (k : nat) :
  1 <= n ->
  let started := start countdown (setTime countdown n st) in
  let after := countdownSeconds k countdown started in
  (Z.of_nat k < n ->
   after = {| totalSeconds := n - Z.of_nat k; isRunning := true;
              initialSecondsRef := n;
              onCompleteCalls := onCompleteCalls st |})
  /\
  (n <= Z.of_nat k ->
   after = {| totalSeconds := 0; isRunning := false;
              initialSecondsRef := n;
              onCompleteCalls := S (onCompleteCalls st) |} /\
   start countdown after =
     {| totalSeconds := n; isRunning := true; initialSecondsRef := n;
        onCompleteCalls := S (onCompleteCalls st) |}).
Proof.
  intros Hn started after.
  assert (Hstarted :
    started = {| totalSeconds := n; isRunning := true;
                 initialSecondsRef := n;
                 onCompleteCalls := onCompleteCalls st |}).
  { subst started. unfold start, setTime. simpl.
    rewrite bool_decide_eq_false_2 by lia. reflexivity. }
  subst after. rewrite Hstarted. split.
  - intros Hk. apply countdownSeconds_running. assumption.
  - intros Hk.
    assert (Hend :
      countdownSeconds k countdown
        {| totalSeconds := n; isRunning := true; initialSecondsRef := n;
           onCompleteCalls := onCompleteCalls st |} =
      {| totalSeconds := 0; isRunning := false; initialSecondsRef := n;
         onCompleteCalls := S (onCompleteCalls st) |}).
    { replace k with (Z.to_nat (n - 1) + (1 + (k - Z.to_nat n)))%nat by lia.
      rewrite countdownSeconds_add, countdownSeconds_running by lia.
      rewrite countdownSeconds_add.
      replace (n - Z.of_nat (Z.to_nat (n - 1))) with 1 by lia.
      cbn [countdownSeconds]. unfold countdownSecond, countdownTick. simpl.
      apply countdownSeconds_stopped. reflexivity. }
    rewrite Hend. split; reflexivity.
Qed.

(** X18: in clock mode the display is the local time: at [h:m:s], with
    [h] below 24, the six digits shown are the two decimal digits each
    of [h], [m] and [s]. *)
Theorem clock_shows_local_time (h m s : Z) (st : HookState) :
  0 <= h < 24 -> 0 <= m < 60 -> 0 <= s < 60 ->
  Display.digits (totalSeconds (updateClock h m s st)) =
  [Display.digitChar (h / 10); Display.digitChar (h mod 10);
   Display.digitChar (m / 10); Display.digitChar (m mod 10);
   Display.digitChar (s / 10); Display.digitChar (s mod 10)].
Proof.
  intros Hh Hm Hs. simpl. unfold clockSeconds, Display.digits.
  rewrite secondsToTime_of_parts by lia. simpl.
  unfold Display.formatTimeDigits.
  rewrite !padStart_two_digits by lia. reflexivity.
Qed.

End Hook.

Lemma hook_countdown_witness :
  HookTimer.countdownSeconds 3 HookTimer.countdown
    (HookTimer.start HookTimer.countdown
       (HookTimer.setTime HookTimer.countdown 5
          (HookTimer.init HookTimer.countdown 1500 0 0 0))) =
    {| HookTimer.totalSeconds := 2; HookTimer.isRunning := true;
       HookTimer.initialSecondsRef := 5; HookTimer.onCompleteCalls := 0 |} /\
  HookTimer.countdownSeconds 9 HookTimer.countdown
    (HookTimer.start HookTimer.countdown
       (HookTimer.setTime HookTimer.countdown 5
          (HookTimer.init HookTimer.countdown 1500 0 0 0))) =
    {| HookTimer.totalSeconds := 0; HookTimer.isRunning := false;
       HookTimer.initialSecondsRef := 5; HookTimer.onCompleteCalls := 1 |}.
Proof.
  split.
  - apply (proj1 (hook_countdown 5
                    (HookTimer.init HookTimer.countdown 1500 0 0 0) 3
                    ltac:(lia))).
    lia.
  - apply (proj2 (hook_countdown 5
                    (HookTimer.init HookTimer.countdown 1500 0 0 0) 9
                    ltac:(lia))).
    lia.
Defined.

Lemma clock_shows_local_time_witness :
  Display.digits
    (HookTimer.totalSeconds
       (HookTimer.updateClock 23 59 7
          (HookTimer.init HookTimer.clock 1500 0 0 0))) =
  ["2"; "3"; "5"; "9"; "0"; "7"]%char.
Proof.
  apply (clock_shows_local_time 23 59 7
           (HookTimer.init HookTimer.clock 1500 0 0 0)); lia.
Defined.

(** * The presets library and the editor *)

Section PresetsMigration.

Import PresetsLib.

Variable fresh : nat -> string.

Example migrate_legacy :
  preset_phases
    (migratePreset fresh
       {| preset_id := "p"; preset_name := "Old"; preset_phases := None;
          preset_loopPhases := None; preset_color := None;
          preset_createdAt := 0; preset_order := 0;
          workMinutes := Some 50; breakMinutes := Some 10;
          scheduledStart := Some "09:00"; scheduledEnd := None |}) =
  Some [ {| phase_id := fresh 0%nat; phase_name := "Work";
            phase_durationMinutes := 50; phase_startTime := Some "09:00";
            phase_order := 0 |};
         {| phase_id := fresh 1%nat; phase_name := "Break";
            phase_durationMinutes := 10; phase_startTime := None;
            phase_order := 1 |} ].
Proof. reflexivity. Qed.

(** A migrated preset has a first phase. *)
Lemma migratePreset_first_phase (preset : PresetData) :
  exists first rest,
    preset_phases (migratePreset fresh preset) = Some (first :: rest).
Proof.
  unfold migratePreset.
  destruct (preset_phases preset) as [[| first rest] |] eqn:Hphases;
    try (exists first, rest; assumption);
    destruct (workMinutes preset), (breakMinutes preset); simpl;
    do 2 eexists; reflexivity.
Qed.

(** A preset that has phases is left alone. *)
Lemma migratePreset_keeps (preset : PresetData) (first : PhaseData)
    (rest : list PhaseData) :
  preset_phases preset = Some (first :: rest) ->
  migratePreset fresh preset = preset.
Proof. intros Hphases. unfold migratePreset. rewrite Hphases. reflexivity. Qed.

End PresetsMigration.

Section PresetsMigrationFacts.

Import PresetsLib.

(** X19: whatever document it is given, [migratePreset] returns a
    preset with at least one phase, also as the engine sees it; it
    leaves a preset that has phases as it is; and migrating twice is
    migrating once. *)
Theorem migratePreset_normalizes (fresh fresh' : nat -> string)
    (preset : PresetData) :
  (exists first rest,
     preset_phases (migratePreset fresh preset) = Some (first :: rest)) /\
  phases (toPreset (migratePreset fresh preset)) <> [] /\
  (forall first rest,
     preset_phases preset = Some (first :: rest) ->
     migratePreset fresh preset = preset) /\
  migratePreset fresh' (migratePreset fresh preset) =
    migratePreset fresh preset.
Proof.
  destruct (migratePreset_first_phase fresh preset)
    as (first & rest & Hphases).
  split; [eauto |]. split; [| split].
  - unfold toPreset. rewrite Hphases. discriminate.
  - intros first' rest'. apply migratePreset_keeps.
  - eapply migratePreset_keeps. eassumption.
Qed.

(** X20: for a legacy document, one without phases, the migrated
    phases carry their position as [order] except in one case: when
    only [breakMinutes] is present the single phase has [order] 1. *)
Theorem migratePreset_orders (fresh : nat -> string)
    (preset : PresetData) :
  preset_phases preset = None \/ preset_phases preset = Some [] ->
  (ordered (default [] (preset_phases (migratePreset fresh preset))) <->
   ~ (workMinutes preset = None /\ breakMinutes preset <> None)) /\
  (forall minutes,
     workMinutes preset = None -> breakMinutes preset = Some minutes ->
     preset_phases (migratePreset fresh preset) =
     Some [ {| phase_id := fresh 0%nat; phase_name := "Break";
               phase_durationMinutes := minutes; phase_startTime := None;
               phase_order := 1 |} ]).
Proof.
  intros Hlegacy.
  assert (Hshape :
    migratePreset fresh preset =
    match workMinutes preset, breakMinutes preset with
    | Some w, Some b =>
        withPhases
          [ {| phase_id := fresh 0%nat; phase_name := "Work";
               phase_durationMinutes := w;
               phase_startTime := scheduledStart preset; phase_order := 0 |};
            {| phase_id := fresh 1%nat; phase_name := "Break";
               phase_durationMinutes := b; phase_startTime := None;
               phase_order := 1 |} ] preset
    | Some w, None =>
        withPhases
          [ {| phase_id := fresh 0%nat; phase_name := "Work";
               phase_durationMinutes := w;
               phase_startTime := scheduledStart preset; phase_order := 0 |} ]
          preset
    | None, Some b =>
        withPhases
          [ {| phase_id := fresh 0%nat; phase_name := "Break";
               phase_durationMinutes := b; phase_startTime := None;
               phase_order := 1 |} ] preset
    | None, None => withPhases (createDefaultPhases fresh) preset
    end).
  { unfold migratePreset.
    destruct Hlegacy as [-> | ->];
      destruct (workMinutes preset), (breakMinutes preset); reflexivity. }
  rewrite Hshape. split.
  - destruct (workMinutes preset) as [w |], (breakMinutes preset) as [b |];
      simpl; split.
    + intros _ [? _]. discriminate.
    + intros _ [| [| i]] p; simpl; intros [= <-]; reflexivity.
    + intros _ [? _]. discriminate.
    + intros _ [| i] p; simpl; intros [= <-]; reflexivity.
    + intros Hordered _. specialize (Hordered 0%nat _ eq_refl).
      simpl in Hordered. discriminate.
    + intros Hnot. exfalso. apply Hnot. split; [reflexivity | discriminate].
    + intros _ [_ Hbreak]. apply Hbreak. reflexivity.
    + intros _ [| [| i]] p; simpl; intros [= <-]; reflexivity.
  - intros minutes -> ->. reflexivity.
Qed.

End PresetsMigrationFacts.

Lemma migratePreset_orders_witness :
  PresetsLib.preset_phases
    (PresetsLib.migratePreset (fun _ => "x")
       {| PresetsLib.preset_id := "p"; PresetsLib.preset_name := "Old";
          PresetsLib.preset_phases := None;
          PresetsLib.preset_loopPhases := None;
          PresetsLib.preset_color := None;
          PresetsLib.preset_createdAt := 0; PresetsLib.preset_order := 0;
          PresetsLib.workMinutes := None;
          PresetsLib.breakMinutes := Some 10;
          PresetsLib.scheduledStart := None;
          PresetsLib.scheduledEnd := None |}) =
  Some [ {| PresetsLib.phase_id := "x"; PresetsLib.phase_name := "Break";
            PresetsLib.phase_durationMinutes := 10;
            PresetsLib.phase_startTime := None;
            PresetsLib.phase_order := 1 |} ].
Proof.
  apply (proj2 (migratePreset_orders (fun _ => "x")
                  {| PresetsLib.preset_id := "p";
                     PresetsLib.preset_name := "Old";
                     PresetsLib.preset_phases := None;
                     PresetsLib.preset_loopPhases := None;
                     PresetsLib.preset_color := None;
                     PresetsLib.preset_createdAt := 0;
                     PresetsLib.preset_order := 0;
                     PresetsLib.workMinutes := None;
                     PresetsLib.breakMinutes := Some 10;
                     PresetsLib.scheduledStart := None;
                     PresetsLib.scheduledEnd := None |}
                  ltac:(left; reflexivity)) 10);
    reflexivity.
Defined.

Section EditorFacts.

Import PresetsLib Editor.

Lemma reindex_ordered (ps : list PhaseData) : ordered (reindex ps).
Proof.
  intros i p. unfold reindex. rewrite list_lookup_imap.
  destruct (ps !! i); simpl; [| discriminate].
  intros [= <-]. reflexivity.
Qed.

Lemma reindex_length (ps : list PhaseData) :
  length (reindex ps) = length ps.
Proof. apply length_imap. Qed.

Lemma reindex_ids (ps : list PhaseData) :
  phase_id <$> reindex ps = phase_id <$> ps.
Proof.
  unfold reindex. apply list_eq. intros i.
  rewrite !list_lookup_fmap, list_lookup_imap.
  destruct (ps !! i); reflexivity.
Qed.

(** X21: adding a phase to a list whose phases carry their position as
    [order] gives such a list; deleting a phase, and dropping a dragged
    phase whatever the library's [arrayMove] does, give such a list
    whenever they change the list. *)
Theorem editor_keeps_order (ps : list PhaseData) :
  ordered ps ->
  (forall newId, ordered (handleAddPhase newId ps)) /\
  (forall id, ordered (handleDeletePhase id ps)) /\
  (forall arrayMove active over,
     ordered (handleDragEnd arrayMove active over ps)).
Proof.
  intros Hordered. split; [| split].
  - intros newId i p. unfold handleAddPhase.
    destruct (decide (i < length ps)%nat) as [Hin | Hout].
    + rewrite lookup_app_l by assumption. apply Hordered.
    + rewrite lookup_app_r by lia.
      destruct (i - length ps)%nat as [| k] eqn:Hk; simpl;
        [| intros [=]].
      intros [= <-]. simpl. unfold js_length. lia.
  - intros id. unfold handleDeletePhase.
    case_decide; [assumption | apply reindex_ordered].
  - intros arrayMove active over. unfold handleDragEnd.
    destruct over as [overId |]; [| assumption].
    case_decide; [apply reindex_ordered | assumption].
Qed.

(** Dropping the phases with one id from a list of distinct ids drops
    at most one. *)
Lemma filter_other_ids_length (id : string) (ps : list PhaseData) :
  NoDup (phase_id <$> ps) ->
  (length ps <= S (length (filter (fun p => phase_id p <> id) ps)))%nat.
Proof.
  induction ps as [| p ps IH]; intros Hdistinct; simpl; [lia |].
  apply NoDup_cons in Hdistinct as [Hfresh Hrest].
  rewrite filter_cons. destruct (decide (phase_id p <> id)) as [Hne | Heq].
  - simpl. specialize (IH Hrest). lia.
  - assert (Hid : phase_id p = id) by (destruct (decide (phase_id p = id)); tauto).
    assert (Hall : filter (fun q => phase_id q <> id) ps = ps).
    { clear IH Hrest. induction ps as [| q ps IHps]; [reflexivity |].
      rewrite filter_cons. simpl in Hfresh.
      apply not_elem_of_cons in Hfresh as [Hq Hps].
      rewrite decide_True by congruence. f_equal. apply IHps. assumption. }
    rewrite Hall. lia.
Qed.

(** X22: deleting from a list of phases with distinct ids that has a
    phase never empties it: a single phase stays, and from two phases
    on exactly the phase with the id goes, if there is one. *)
Theorem delete_keeps_a_phase (id : string) (ps : list PhaseData) :
  NoDup (phase_id <$> ps) ->
  ps <> [] ->
  handleDeletePhase id ps <> [] /\
  (length ps - 1 <= length (handleDeletePhase id ps) <= length ps)%nat /\
  (1 < js_length ps -> id ∉ phase_id <$> handleDeletePhase id ps).
Proof.
  intros Hdistinct Hphases. unfold handleDeletePhase, js_length.
  case_decide as Hshort.
  - split; [assumption |]. split; [lia | lia].
  - pose proof (filter_other_ids_length id ps Hdistinct) as Hdropped.
    pose proof (length_filter (fun p => phase_id p <> id) ps) as Hkept.
    split; [| split].
    + intros Hempty. apply (f_equal length) in Hempty.
      rewrite reindex_length in Hempty. simpl in Hempty. lia.
    + rewrite reindex_length. lia.
    + intros _. rewrite reindex_ids.
      intros (p & Hid & Hin)%list_elem_of_fmap.
      apply list_elem_of_filter in Hin as [Hne _]. congruence.
Qed.

(** With a repeated id the same deletion empties the list. *)
Example delete_repeated_id :
  handleDeletePhase "a"
    [ {| phase_id := "a"; phase_name := "Work"; phase_durationMinutes := 25;
         phase_startTime := None; phase_order := 0 |};
      {| phase_id := "a"; phase_name := "Break"; phase_durationMinutes := 5;
         phase_startTime := None; phase_order := 1 |} ] = [].
Proof. reflexivity. Qed.

End EditorFacts.

Section NumbersAsText.

Import Display Editor.

Example parseInt_examples :
  parseInt " 42abc" = Some 42 /\ parseInt "abc" = None /\
  parseInt "-7" = Some (-7) /\ parseInt EmptyString = None /\
  parseInt "+3.9" = Some 3.
Proof. repeat split. Qed.

(** The character of a decimal digit is read as that digit. *)
Lemma digitChar_read (d : Z) :
  0 <= d < 10 ->
  isDigit (digitChar d) = true /\ digitValue (digitChar d) = d /\
  isWhiteSpace (digitChar d) = false /\
  digitChar d <> "-"%char /\ digitChar d <> "+"%char.
Proof.
  intros Hrange.
  assert (Hnat : exists k : nat, (k < 10)%nat /\ d = Z.of_nat k)
    by (exists (Z.to_nat d); lia).
  destruct Hnat as (k & Hk & ->). clear Hrange.
  do 10 (destruct k as [| k]; [repeat split; discriminate |]).
  lia.
Qed.

(** Reading the digits written for [n] gives [n]. *)
Lemma parseDigits_decimalDigits (fuel : nat) :
  forall (n : Z) (acc : string) (seen : bool),
    0 <= n < 2 ^ Z.of_nat fuel ->
    (0 < fuel)%nat ->
    parseDigits (decimalDigits fuel n acc) 0 seen = parseDigits acc n true.
Proof.
  induction fuel as [| fuel IH]; intros n acc seen Hn Hfuel; [lia |].
  cbn [decimalDigits].
  pose proof (Z.mod_pos_bound n 10 ltac:(lia)) as Hdigit.
  pose proof (Z.div_mod n 10 ltac:(lia)) as Hsplit.
  destruct (digitChar_read (n mod 10) Hdigit) as (Hisdigit & Hvalue & _).
  case_decide as Hlast.
  - cbn [parseDigits]. rewrite Hisdigit, Hvalue. f_equal. lia.
  - assert (Hquot : 1 <= n / 10).
    { assert (0 <= n / 10) by (apply Z.div_pos; lia). lia. }
    assert (Hpow : 2 ^ Z.of_nat (S fuel) = 2 * 2 ^ Z.of_nat fuel).
    { rewrite Nat2Z.inj_succ, Z.pow_succ_r by lia. reflexivity. }
    assert (Hsmall : n / 10 < 2 ^ Z.of_nat fuel) by lia.
    assert (Hfuel' : (0 < fuel)%nat).
    { destruct fuel; [simpl in Hsmall; lia | lia]. }
    rewrite IH by (try split; lia).
    cbn [parseDigits]. rewrite Hisdigit, Hvalue. f_equal. lia.
Qed.

(** What is written for a number starts with a digit. *)
Lemma decimalDigits_head (fuel : nat) :
  forall (n : Z) (acc : string),
    (0 < fuel)%nat -> 0 <= n ->
    exists d rest,
      0 <= d < 10 /\ decimalDigits fuel n acc = String (digitChar d) rest.
Proof.
  induction fuel as [| fuel IH]; intros n acc Hfuel Hn; [lia |].
  cbn [decimalDigits].
  pose proof (Z.mod_pos_bound n 10 ltac:(lia)) as Hdigit.
  case_decide; [eauto |].
  destruct fuel as [| fuel']; [simpl; eauto |].
  apply IH; [lia | apply Z.div_pos; lia].
Qed.

(** Text that starts neither with white space nor with a sign is read
    from its first character. *)
Lemma parseInt_unsigned (c : ascii) (rest : string) :
  isWhiteSpace c = false -> c <> "-"%char -> c <> "+"%char ->
  parseInt (String c rest) = parseDigits (String c rest) 0 false.
Proof.
  intros Hws Hminus Hplus. unfold parseInt. cbn [skipWhiteSpace].
  rewrite Hws.
  destruct c as [[] [] [] [] [] [] [] []]; try reflexivity; contradiction.
Qed.

Lemma fuel_suffices (n : Z) :
  0 <= n -> n < 2 ^ Z.of_nat (S (Z.to_nat (Z.log2 n))).
Proof.
  intros Hn.
  replace (Z.of_nat (S (Z.to_nat (Z.log2 n)))) with (Z.succ (Z.log2 n))
    by (pose proof (Z.log2_nonneg n); lia).
  destruct (decide (n = 0)) as [-> | Hpos]; [reflexivity |].
  apply Z.log2_spec. lia.
Qed.

(** [parseInt(String(n), 10)] is [n], for every integer. *)
Lemma parseInt_toString (n : Z) : parseInt (toString n) = Some n.
Proof.
  unfold toString. case_decide as Hsign.
  - unfold parseInt. cbn [skipWhiteSpace].
    change (isWhiteSpace "-") with false. cbv iota.
    rewrite parseDigits_decimalDigits
      by (try split; try apply fuel_suffices; lia).
    simpl. f_equal. lia.
  - destruct (decimalDigits_head (S (Z.to_nat (Z.log2 n))) n EmptyString)
      as (d & rest & Hd & Hhead); [lia | lia |].
    destruct (digitChar_read d Hd) as (_ & _ & Hws & Hminus & Hplus).
    rewrite Hhead, parseInt_unsigned by assumption.
    rewrite <- Hhead.
    rewrite parseDigits_decimalDigits
      by (try split; try apply fuel_suffices; lia).
    reflexivity.
Qed.

(** X23: whatever was typed into the duration field, leaving the field
    commits a duration from 1 to 180 and shows that number; and leaving
    the field again without typing commits and shows the same. *)
Theorem handleDurationBlur_commits (typed : string) :
  let shown := (handleDurationBlur typed).1 in
  let committed := (handleDurationBlur typed).2 in
  1 <= committed <= 180 /\
  shown = toString committed /\
  handleDurationBlur shown = (shown, committed).
Proof.
  intros shown committed. subst shown committed.
  assert (Hstable : forall d, 1 <= d <= 180 ->
    handleDurationBlur (toString d) = (toString d, d)).
  { intros d Hd. unfold handleDurationBlur.
    rewrite parseInt_toString. rewrite decide_False by lia.
    rewrite Z.min_r by lia. reflexivity. }
  destruct (handleDurationBlur typed) as [shown committed] eqn:Hblur.
  simpl. unfold handleDurationBlur, DEFAULT_DURATION in Hblur.
  destruct (parseInt typed) as [parsed |]; [case_decide |];
    injection Hblur as <- <-;
    (split; [lia |]); (split; [reflexivity |]); apply Hstable; lia.
Qed.

Example handleDurationBlur_examples :
  handleDurationBlur "999" = ("180", 180) /\
  handleDurationBlur "0" = ("25", 25) /\
  handleDurationBlur "abc" = ("25", 25) /\
  handleDurationBlur "12 min" = ("12", 12) /\
  handleDurationBlur EmptyString = ("25", 25).
Proof. repeat split. Qed.

End NumbersAsText.

Section FormValidation.

Import PresetsLib Editor.

Lemma validatePhases_passes (ps : list PhaseData) :
  validatePhases ps = None <->
  (forall phase, phase ∈ ps ->
     trim (phase_name phase) <> EmptyString /\
     1 <= phase_durationMinutes phase <= 180).
Proof.
  induction ps as [| phase ps IH]; simpl.
  - split; [intros _ q Hq; inversion Hq | reflexivity].
  - repeat case_decide.
    + split; [discriminate |]. intros Hall.
      destruct (Hall phase) as [Hname _]; [left |]. contradiction.
    + split; [discriminate |]. intros Hall.
      destruct (Hall phase) as [_ Hrange]; [left |]. lia.
    + rewrite IH. split.
      * intros Hrest q [-> | Hq]%elem_of_cons; [split; [assumption | lia] |].
        apply Hrest. assumption.
      * intros Hall q Hq. apply Hall. right. assumption.
Qed.

(** X24: the form hands on to [onSave] exactly the presets with a name
    that is not blank, at least one phase, and in every phase a name
    that is not blank and a duration from 1 to 180 minutes; what it
    hands on is the trimmed name with the phases and the loop flag as
    they are. *)
Theorem handleSubmit_saves_valid (name : string) (ps : list PhaseData)
    (loop : bool) :
  (forall saved,
     handleSubmit name ps loop = inr saved ->
     saved = (trim name, ps, loop) /\
     trim name <> EmptyString /\
     ps <> [] /\
     (forall phase, phase ∈ ps ->
        trim (phase_name phase) <> EmptyString /\
        1 <= phase_durationMinutes phase <= 180))
  /\
  (trim name <> EmptyString ->
   ps <> [] ->
   (forall phase, phase ∈ ps ->
      trim (phase_name phase) <> EmptyString /\
      1 <= phase_durationMinutes phase <= 180) ->
   handleSubmit name ps loop = inr (trim name, ps, loop)).
Proof.
  unfold handleSubmit. split.
  - intros saved. repeat case_decide; try discriminate.
    destruct (validatePhases ps) eqn:Hvalid; [discriminate |].
    intros [= <-].
    pose proof (proj1 (validatePhases_passes ps) Hvalid) as Hall.
    split; [reflexivity |]. split; [assumption |]. split; [| exact Hall].
    intros ->. unfold js_length in *. simpl in *. lia.
  - intros Hname Hphases Hall.
    rewrite decide_False by assumption.
    rewrite decide_False by (rewrite js_length_zero; assumption).
    rewrite (proj2 (validatePhases_passes ps) Hall). reflexivity.
Qed.

End FormValidation.

Lemma editor_keeps_order_witness :
  (forall newId,
     PresetsLib.ordered
       (Editor.handleAddPhase newId
          EditorScenarios.defaults)) /\
  (forall id,
     PresetsLib.ordered
       (Editor.handleDeletePhase id
          EditorScenarios.defaults)) /\
  (forall arrayMove active over,
     PresetsLib.ordered
       (Editor.handleDragEnd arrayMove active over
          EditorScenarios.defaults)).
Proof.
  apply (editor_keeps_order
           EditorScenarios.defaults).
  intros [| [| i]] p; simpl; intros [= <-]; reflexivity.
Defined.

Lemma delete_keeps_a_phase_witness :
  Editor.handleDeletePhase "a"
    EditorScenarios.defaults <> [] /\
  (length EditorScenarios.defaults - 1 <=
   length
     (Editor.handleDeletePhase "a"
        EditorScenarios.defaults) <=
   length EditorScenarios.defaults)%nat /\
  (1 < js_length EditorScenarios.defaults ->
   "a" ∉ PresetsLib.phase_id <$>
           Editor.handleDeletePhase "a"
             EditorScenarios.defaults).
Proof.
  apply (delete_keeps_a_phase "a"
           EditorScenarios.defaults).
  - apply (bool_decide_unpack _). vm_compute. reflexivity.
  - discriminate.
Defined.

Lemma handleSubmit_saves_valid_witness :
  Editor.handleSubmit " Deep work "
    EditorScenarios.defaults true =
  inr ("Deep work", EditorScenarios.defaults, true).
Proof.
  apply (proj2 (handleSubmit_saves_valid " Deep work "
                  EditorScenarios.defaults true)).
  - discriminate.
  - discriminate.
  - apply Forall_forall. repeat constructor; simpl; solve [discriminate | lia].
Defined.

(** * The [useTimeTracker] hook *)

Section TimeTracker.

Import Tracker.

(** One event: the elapsed seconds do not go down, and they stay
    within the time since the session started. *)
Lemma handle_bounds (start : Z) (e : event) (r : Refs) :
  elapsedSecondsRef r <= elapsedSecondsRef (handle e r) /\
  (elapsedSecondsRef r * 1000 <= lastTickRef r - start ->
   lastTickRef r <= timeOf e ->
   elapsedSecondsRef (handle e r) * 1000 <=
     lastTickRef (handle e r) - start /\
   lastTickRef (handle e r) <= timeOf e).
Proof.
  assert (Htick : forall now,
    elapsedSecondsRef r <= elapsedSecondsRef (tick now r) /\
    (elapsedSecondsRef r * 1000 <= lastTickRef r - start ->
     lastTickRef r <= now ->
     elapsedSecondsRef (tick now r) * 1000 <=
       lastTickRef (tick now r) - start /\
     lastTickRef (tick now r) <= now)).
  { intros now. unfold tick.
    destruct (isActiveRef r); simpl; [| lia].
    case_decide as Hdelta; simpl; [| lia].
    pose proof (Z.div_mod (now - lastTickRef r) 1000 ltac:(lia)).
    pose proof (Z.mod_pos_bound (now - lastTickRef r) 1000 ltac:(lia)).
    lia. }
  destruct e as [now | hidden now]; simpl; [apply Htick |].
  unfold handleVisibilityChange. destruct hidden; simpl;
    [apply Htick | lia].
Qed.

Lemma run_cons (e : event) (events : list event) (r : Refs) :
  run (e :: events) r = run events (handle e r).
Proof. reflexivity. Qed.

Lemma lastTime_cons (from : Z) (e : event) (events : list event) :
  lastTime from (e :: events) = lastTime (timeOf e) events.
Proof. reflexivity. Qed.

(** X25: over any events of a session the tracked seconds never go
    down, even when the clock jumps back; and when the events come in
    the order of their times, none before the start of the session, the
    tracked seconds are never negative and never more than the time
    from the start of the session to the last event. *)
Theorem tracker_never_overcounts (start : Z) (events : list event) :
  (forall r, elapsedSecondsRef r <= elapsedSecondsRef (run events r)) /\
  (inOrder start events ->
   0 <= elapsedSecondsRef (run events (startSession start)) /\
   elapsedSecondsRef (run events (startSession start)) * 1000 <=
     lastTime start events - start).
Proof.
  split.
  - induction events as [| e events IH]; intros r; [simpl; lia |].
    rewrite run_cons.
    pose proof (proj1 (handle_bounds start e r)).
    specialize (IH (handle e r)). lia.
  - intros Horder.
    assert (Hgeneral : forall (from : Z) (r : Refs),
      inOrder from events ->
      start <= from ->
      0 <= elapsedSecondsRef r ->
      elapsedSecondsRef r * 1000 <= lastTickRef r - start ->
      lastTickRef r <= from ->
      0 <= elapsedSecondsRef (run events r) /\
      elapsedSecondsRef (run events r) * 1000 <=
        lastTime from events - start).
    { clear Horder. induction events as [| e events IH];
        intros from r Horder Hfrom Hnonneg Hbound Hlast.
      - unfold run, lastTime. simpl. lia.
      - destruct Horder as [Hnow Hrest].
        destruct (handle_bounds start e r) as [Hup Hkeep].
        destruct (Hkeep Hbound ltac:(lia)) as [Hbound' Hlast'].
        rewrite run_cons, lastTime_cons.
        apply (IH (timeOf e) (handle e r)); try assumption; lia. }
    apply (Hgeneral start (startSession start)); simpl;
      solve [assumption | lia].
Qed.

End TimeTracker.

Lemma tracker_never_overcounts_witness :
  0 <= Tracker.elapsedSecondsRef
         (Tracker.run
            [Tracker.Tick 2500; Tracker.Visibility true 4000;
             Tracker.Tick 9000; Tracker.Visibility false 10000;
             Tracker.Tick 11700]
            (Tracker.startSession 1000)) /\
  Tracker.elapsedSecondsRef
    (Tracker.run
       [Tracker.Tick 2500; Tracker.Visibility true 4000;
        Tracker.Tick 9000; Tracker.Visibility false 10000;
        Tracker.Tick 11700]
       (Tracker.startSession 1000)) * 1000 <=
  Tracker.lastTime 1000
    [Tracker.Tick 2500; Tracker.Visibility true 4000;
     Tracker.Tick 9000; Tracker.Visibility false 10000;
     Tracker.Tick 11700] - 1000.
Proof.
  apply (proj2 (tracker_never_overcounts 1000
                  [Tracker.Tick 2500; Tracker.Visibility true 4000;
                   Tracker.Tick 9000; Tracker.Visibility false 10000;
                   Tracker.Tick 11700])).
  simpl. lia.
Defined.

(** The session of the witness: one second at 2500 and one more when
    the tab is hidden at 4000 (each time the half second over is
    dropped), none while it is hidden, one more after it is shown at
    10000. *)
Example tracker_session :
  Tracker.elapsedSecondsRef
    (Tracker.run
       [Tracker.Tick 2500; Tracker.Visibility true 4000;
        Tracker.Tick 9000; Tracker.Visibility false 10000;
        Tracker.Tick 11700]
       (Tracker.startSession 1000)) = 3.
Proof. reflexivity. Qed.

(** * The preset-change effect, settled *)

Section EffectSettles.

Import Engine Provider.


End EffectSettles.


(** * From the editor's durations to the display *)

Section Displayable.

Import Engine.

Variable ap : Preset.

Hypothesis durations_valid :
  forall phase, phase ∈ phases ap -> 1 <= durationMinutes phase <= 180.

Lemma enterPhase_seconds (index : Z) (run : bool) (st : TimerStatus)
    (s : TimerState) :
  enterPhase (phases ap) index run st = Ok s ->
  60 <= totalSeconds s <= 10800.
Proof.
  unfold enterPhase, js_index. case_decide; [| discriminate].
  destruct (phases ap !! Z.to_nat index) as [phase |] eqn:Hlookup;
    [| discriminate].
  intros [= <-]. simpl.
  assert (phase ∈ phases ap) by (eapply list_elem_of_lookup_2; eassumption).
  pose proof (durations_valid phase ltac:(assumption)). lia.
Qed.

Lemma js_index_duration (index : Z) (phase : Phase) :
  js_index (phases ap) index = Some phase ->
  1 <= durationMinutes phase <= 180.
Proof.
  unfold js_index. case_decide; [| discriminate].
  intros Hlookup. apply durations_valid.
  eapply list_elem_of_lookup_2. eassumption.
Qed.

Local Ltac seconds_by_cases :=
  repeat case_match; intros Hstep;
  repeat match goal with
         | H : js_index (phases ap) _ = Some _ |- _ =>
             apply js_index_duration in H
         end;
  first
    [ apply enterPhase_seconds in Hstep; lia
    | injection Hstep as <-; simpl; lia ].

(** X27: under a preset whose phases each last from 1 to 180 minutes,
    as the editor commits them, a timer with 0 to 10800 seconds left
    stays within 0 to 10800 seconds through every control and every
    tick, and its display is six characters wide. *)
Theorem seconds_stay_displayable (s s' : TimerState) :
  0 <= totalSeconds s <= 10800 ->
  start (Some ap) s = Ok s' \/ pause s = Ok s' \/
  reset (Some ap) s = Ok s' \/ skipToNextPhase (Some ap) s = Ok s' \/
  skipToPreviousPhase (Some ap) s = Ok s' \/
  (exists index, goToPhase (Some ap) index s = Ok s') \/
  tick (Some ap) s = Ok s' ->
  0 <= totalSeconds s' <= 10800 /\
  length (Display.digits (totalSeconds s')) = 6%nat.
Proof.
  intros Hs Hop.
  assert (Hbound : 0 <= totalSeconds s' <= 10800).
  { destruct Hop as [Hop | [Hop | [Hop | [Hop | [Hop | [[index Hop] | Hop]]]]]];
      revert Hop.
    - unfold start. seconds_by_cases.
    - unfold pause. seconds_by_cases.
    - unfold reset. seconds_by_cases.
    - unfold skipToNextPhase. seconds_by_cases.
    - unfold skipToPreviousPhase. seconds_by_cases.
    - unfold goToPhase. seconds_by_cases.
    - unfold tick. seconds_by_cases. }
  split; [exact Hbound |].
  destruct (digits_below_hundred_hours (totalSeconds s') ltac:(lia))
    as [Hdigits _].
  rewrite Hdigits. reflexivity.
Qed.

End Displayable.

Lemma seconds_stay_displayable_witness :
  0 <= totalSeconds (Schedule.runningIn 1 60) <= 10800 /\
  length (Display.digits (totalSeconds (Schedule.runningIn 1 60))) = 6%nat.
Proof.
  apply (seconds_stay_displayable (Scenarios.workBreak false)
           ltac:(apply Forall_forall; repeat constructor; simpl; lia)
           (Schedule.runningIn 0 1) (Schedule.runningIn 1 60)).
  - simpl. lia.
  - repeat right. reflexivity.
Defined.
